(** * GitTeach: the agent-flow verification scripts

    A shallow embedding of the Python scripts under [scripts/]
    ([verify_agent_flow.py], [verify_repo_analysis.py],
    [stress_test_ai.py], [live_analysis_test.py]) and of
    [goal_validator_demo.py], and the properties of the Router /
    Constructor / Executor / Responder pipeline they encode. A run is a
    trace of the requests sent and the lines printed; a [print] of a
    text that the standard output cannot encode raises, as it does in
    the interpreter. *)

From Stdlib Require Import String Ascii.
From Stdlib Require Import List NArith ZArith QArith Lia Bool.
Import ListNotations.
Local Open Scope list_scope.

Set Implicit Arguments.
Set Warnings "-register-all".
Close Scope Q_scope.

(** ** Python [str] *)

(** A Python [str] is a sequence of Unicode code points. *)
Module PyStr.

Definition str := list N.

(** An ASCII literal, one code point per byte. *)
Definition lit (s : string) : str :=
  map N_of_ascii (list_ascii_of_string s).

(** A literal of JSON text, written with the apostrophe standing for the
    double quote (code point 34). *)
Definition dq (s : string) : str :=
  map (fun c => if N.eqb c 39 then 34%N else c) (lit s).

Fixpoint eqb (a b : str) : bool :=
  match a, b with
  | [], [] => true
  | x :: a', y :: b' => N.eqb x y && eqb a' b'
  | _, _ => false
  end.

(** [s.startswith(p)] *)
Fixpoint starts_with (p s : str) : bool :=
  match p, s with
  | [], _ => true
  | x :: p', y :: s' => N.eqb x y && starts_with p' s'
  | _ :: _, [] => false
  end.

(** [s.replace(old, new)] for a non-empty [old]: the occurrences of [old]
    are found left to right and do not overlap. [skip] counts the
    characters of a match that are still to be passed over. *)
Fixpoint replace_from (old new : str) (skip : nat) (s : str) : str :=
  match s with
  | [] => []
  | c :: t =>
      match skip with
      | S k => replace_from old new k t
      | O =>
          if starts_with old s
          then new ++ replace_from old new (length old - 1) t
          else c :: replace_from old new 0 t
      end
  end.

(** [s.replace(old, new)]; with an empty [old] Python puts [new] before
    every character and at the end. *)
Definition replace (s old new : str) : str :=
  match old with
  | [] => new ++ flat_map (fun c => c :: new) s
  | _ :: _ => replace_from old new 0 s
  end.

(** [c.isspace()]: the code points that [str.strip()] removes. *)
Definition isspace (c : N) : bool :=
  ((9 <=? c) && (c <=? 13) || (28 <=? c) && (c <=? 32)
   || (c =? 133) || (c =? 160) || (c =? 5760)
   || (8192 <=? c) && (c <=? 8202)
   || (c =? 8232) || (c =? 8233) || (c =? 8239) || (c =? 8287)
   || (c =? 12288))%N.

Fixpoint lstrip (s : str) : str :=
  match s with
  | c :: t => if isspace c then lstrip t else s
  | [] => []
  end.

Definition rstrip (s : str) : str := rev (lstrip (rev s)).

(** [s.strip()] *)
Definition strip (s : str) : str := lstrip (rstrip s).

(** [p in s] as a proposition: [p] occurs somewhere in [s]. *)
Definition occurs (p s : str) : Prop := exists a b, s = a ++ p ++ b.

(** The surrogate code points, U+D800 to U+DFFF. A [str] may hold them
    (the decoder yields one for an escape such as [\ud800] that has no
    partner); UTF-8 has no encoding for them. *)
Definition is_surrogate (c : N) : bool := ((55296 <=? c) && (c <=? 57343))%N.

(** [s.encode('utf-8')] raises [UnicodeEncodeError]. *)
Definition unencodable (s : str) : bool := existsb is_surrogate s.

End PyStr.
Import PyStr.

(** The two markers the scripts delete, and the cleaning expression
    [raw.replace('```json', '').replace('```', '').strip()]
    ([verify_agent_flow.py] lines 95 and 118, [verify_repo_analysis.py]
    line 91, [stress_test_ai.py] line 76). *)
Definition FENCE_JSON : str := lit "```json".
Definition FENCE : str := lit "```".

Definition clean_json (raw : str) : str :=
  strip (replace (replace raw FENCE_JSON []) FENCE []).

(** ** JSON values and the standard decoder *)

Module Json.

(** What [json.loads] returns: [None], [bool], [int], [float], [str],
    [list] and [dict]. A float is kept as the text of its literal; the
    scripts never compute with one. A [dict] is the list of its items in
    insertion order, with distinct keys. *)
Inductive json : Type :=
| JNull
| JBool (b : bool)
| JInt (z : Z)
| JFloat (text : str)
| JString (s : str)
| JArray (items : list json)
| JObject (members : list (str * json)).

Definition dict := list (str * json).

(** [d.get(k)]: [None] when the key is absent. *)
Fixpoint dict_lookup (d : dict) (k : str) : option json :=
  match d with
  | [] => None
  | (k', v) :: d' => if PyStr.eqb k' k then Some v else dict_lookup d' k
  end.

(** [d.get(k, default)] *)
Definition dict_get (d : dict) (k : str) (default : json) : json :=
  match dict_lookup d k with
  | Some v => v
  | None => default
  end.

(** [d[k] = v]: a key already present keeps its place. *)
Fixpoint dict_set (d : dict) (k : str) (v : json) : dict :=
  match d with
  | [] => [(k, v)]
  | (k', v') :: d' =>
      if PyStr.eqb k' k then (k', v) :: d' else (k', v') :: dict_set d' k v
  end.

(** *** The decoder

    A model of CPython's [json.loads] on a [str] (the scanner of the
    [json] package, strict mode): the JSON grammar of RFC 8259 plus the
    literals [NaN], [Infinity] and [-Infinity]. [None] stands for any
    exception raised while decoding. The interpreter's limits (depth of
    nesting, digits of an integer) are left out. It serves the concrete
    runs; the general properties hold for any decoder. *)

Definition is_json_ws (c : N) : bool :=
  ((c =? 32) || (c =? 9) || (c =? 10) || (c =? 13))%N.

Fixpoint skip_ws (s : str) : str :=
  match s with
  | c :: t => if is_json_ws c then skip_ws t else s
  | [] => []
  end.

Definition is_digit (c : N) : bool := ((48 <=? c) && (c <=? 57))%N.

Definition hex_val (c : N) : option N :=
  (if (48 <=? c) && (c <=? 57) then Some (c - 48)
   else if (97 <=? c) && (c <=? 102) then Some (c - 87)
   else if (65 <=? c) && (c <=? 70) then Some (c - 55)
   else None)%N.

(** Four hexadecimal digits after a [\u]. *)
Definition scan_u4 (s : str) : option (N * str) :=
  match s with
  | a :: b :: c :: d :: t =>
      match hex_val a, hex_val b, hex_val c, hex_val d with
      | Some x, Some y, Some z, Some w =>
          Some (((x * 16 + y) * 16 + z) * 16 + w, t)%N
      | _, _, _, _ => None
      end
  | _ => None
  end.

Definition is_high_surrogate (c : N) : bool := ((55296 <=? c) && (c <=? 56319))%N.
Definition is_low_surrogate (c : N) : bool := ((56320 <=? c) && (c <=? 57343))%N.

Definition simple_escape (e : N) : option N :=
  (if e =? 34 then Some 34 else if e =? 92 then Some 92
   else if e =? 47 then Some 47 else if e =? 98 then Some 8
   else if e =? 102 then Some 12 else if e =? 110 then Some 10
   else if e =? 114 then Some 13 else if e =? 116 then Some 9
   else None)%N.

(** The body of a string, after its opening quote; [acc] holds the
    decoded characters in reverse. *)
Fixpoint scanstring (fuel : nat) (s acc : str) : option (str * str) :=
  match fuel with
  | O => None
  | S n =>
      match s with
      | [] => None
      | c :: t =>
          if (c =? 34)%N then Some (rev acc, t)
          else if (c =? 92)%N then
            match t with
            | [] => None
            | e :: t' =>
                if (e =? 117)%N then
                  match scan_u4 t' with
                  | None => None
                  | Some (u, t2) =>
                      match t2 with
                      | 92%N :: 117%N :: t3 =>
                          if is_high_surrogate u && (6 <? length t2)%nat then
                            match scan_u4 t3 with
                            | None => None
                            | Some (u2, t4) =>
                                if is_low_surrogate u2
                                then scanstring n t4
                                       ((65536 + (u - 55296) * 1024 + (u2 - 56320))%N :: acc)
                                else scanstring n t2 (u :: acc)
                            end
                          else scanstring n t2 (u :: acc)
                      | _ => scanstring n t2 (u :: acc)
                      end
                  end
                else
                  match simple_escape e with
                  | Some x => scanstring n t' (x :: acc)
                  | None => None
                  end
            end
          else if (c <? 32)%N then None
          else scanstring n t (c :: acc)
      end
  end.

Fixpoint take_digits (s : str) : str * str :=
  match s with
  | c :: t =>
      if is_digit c then let (ds, r) := take_digits t in (c :: ds, r)
      else ([], s)
  | [] => ([], [])
  end.

Definition digits_value (ds : str) : Z :=
  fold_left (fun acc c => (acc * 10 + Z.of_N (c - 48))%Z) ds 0%Z.

(** The integer part of a number: [0], or a non-zero digit and digits. *)
Definition scan_int_part (s : str) : option (str * str) :=
  match s with
  | c :: t =>
      if (c =? 48)%N then Some ([c], t)
      else if is_digit c then let (ds, r) := take_digits t in Some (c :: ds, r)
      else None
  | [] => None
  end.

(** A fraction [.digits] or nothing. *)
Definition scan_frac (s : str) : str * str :=
  match s with
  | 46%N :: t =>
      match take_digits t with
      | ([], _) => ([], s)
      | (ds, r) => (46%N :: ds, r)
      end
  | _ => ([], s)
  end.

(** An exponent [e], optional sign, digits; or nothing. *)
Definition scan_exp (s : str) : str * str :=
  match s with
  | e :: t =>
      if ((e =? 101) || (e =? 69))%N then
        let (sign, t') :=
          match t with
          | g :: u => if ((g =? 43) || (g =? 45))%N then ([g], u) else ([], t)
          | [] => ([], t)
          end in
        match take_digits t' with
        | ([], _) => ([], s)
        | (ds, r) => (e :: sign ++ ds, r)
        end
      else ([], s)
  | [] => ([], s)
  end.

Definition scan_number (s : str) : option (json * str) :=
  let (neg, s1) :=
    match s with
    | 45%N :: t => (true, t)
    | _ => (false, s)
    end in
  match scan_int_part s1 with
  | None => None
  | Some (ip, s2) =>
      let (fr, s3) := scan_frac s2 in
      let (ex, s4) := scan_exp s3 in
      match fr, ex with
      | [], [] =>
          Some (JInt (if neg then - digits_value ip else digits_value ip)%Z, s4)
      | _, _ =>
          Some (JFloat ((if neg then [45%N] else []) ++ ip ++ fr ++ ex), s4)
      end
  end.

(** A fixed word at the head of the text. *)
Definition scan_word (w : string) (v : json) (s : str) : option (json * str) :=
  if starts_with (lit w) s then Some (v, skipn (length (lit w)) s) else None.

(** [scan_once], with the loops over the items of an array and the
    members of an object. *)
Fixpoint scan_once (fuel : nat) (s : str) {struct fuel} : option (json * str) :=
  match fuel with
  | O => None
  | S n =>
      match s with
      | [] => None
      | c :: t =>
          if (c =? 34)%N then
            match scanstring (length t) t [] with
            | Some (x, r) => Some (JString x, r)
            | None => None
            end
          else if (c =? 123)%N then
            match skip_ws t with
            | 125%N :: r => Some (JObject [], r)
            | 34%N :: r =>
                match scan_members n r [] with
                | Some (d, r') => Some (JObject d, r')
                | None => None
                end
            | _ => None
            end
          else if (c =? 91)%N then
            match skip_ws t with
            | 93%N :: r => Some (JArray [], r)
            | r =>
                match scan_items n r [] with
                | Some (xs, r') => Some (JArray xs, r')
                | None => None
                end
            end
          else if (c =? 110)%N then scan_word "null" JNull s
          else if (c =? 116)%N then scan_word "true" (JBool true) s
          else if (c =? 102)%N then scan_word "false" (JBool false) s
          else if (c =? 78)%N then scan_word "NaN" (JFloat (lit "NaN")) s
          else if (c =? 73)%N then scan_word "Infinity" (JFloat (lit "Infinity")) s
          else if starts_with (lit "-Infinity") s
          then scan_word "-Infinity" (JFloat (lit "-Infinity")) s
          else scan_number s
      end
  end

(** at the first character of an item; [acc] is reversed *)
with scan_items (fuel : nat) (s : str) (acc : list json) {struct fuel}
  : option (list json * str) :=
  match fuel with
  | O => None
  | S n =>
      match scan_once n s with
      | None => None
      | Some (v, r) =>
          match skip_ws r with
          | 93%N :: r' => Some (rev (v :: acc), r')
          | 44%N :: r' => scan_items n (skip_ws r') (v :: acc)
          | _ => None
          end
      end
  end

(** after the opening quote of a key *)
with scan_members (fuel : nat) (s : str) (acc : dict) {struct fuel}
  : option (dict * str) :=
  match fuel with
  | O => None
  | S n =>
      match scanstring (length s) s [] with
      | None => None
      | Some (k, r) =>
          match skip_ws r with
          | 58%N :: r1 =>
              match scan_once n (skip_ws r1) with
              | None => None
              | Some (v, r2) =>
                  let acc' := dict_set acc k v in
                  match skip_ws r2 with
                  | 125%N :: r3 => Some (acc', r3)
                  | 44%N :: r3 =>
                      match skip_ws r3 with
                      | 34%N :: r4 => scan_members n r4 acc'
                      | _ => None
                      end
                  | _ => None
                  end
              end
          | _ => None
          end
      end
  end.

(** [json.loads(s)]: one value, with white space around it and nothing
    else; a leading byte-order mark is refused. *)
Definition loads (s : str) : option json :=
  match s with
  | 65279%N :: _ => None
  | _ =>
      match scan_once (2 * length s + 2) (skip_ws s) with
      | Some (v, r) =>
          match skip_ws r with
          | [] => Some v
          | _ :: _ => None
          end
      | None => None
      end
  end.

End Json.
Import Json.

(** ** Requests, printed lines and the effects of a run *)

(** The system prompts. Each template is a fixed text; what is kept of a
    prompt is which template it is and the values interpolated into it. *)
Inductive text : Type :=
| BannerInserted (tool_id color : json)
    (** [f"Banner '{tool_id}' insertado correctamente con color {color}."] *)
| ReadmeContents.
    (** [f"Contenido de intro-electron/README.md:\n{MOCK_README}"] *)

Inductive prompt : Type :=
| IntentClassifier
| ParamExtractor (tool_id : json)
| Communicator (tool_name : json) (result : text) (user_input : str)
| RepoIntentClassifier
| RepoExtractor
| EmptyJsonTurn
| CodeAssistant (tool : json) (result : text) (user_input : str).

Inductive message : Type :=
| system (content : prompt)
| user (content : str).

(** The body of the POST to the chat-completions endpoint. *)
Record request : Type := {
  model : str;
  messages : list message;
  temperature : Q
}.

Inductive stage : Type := ROUTER | CONSTRUCTOR | EXECUTION | RESPONDER.

(** The lines the scripts print, one constructor per [print] site. *)
Inductive line : Type :=
| Header (user_input : str)
| Rule
| Banner (s : stage)
| Intent (tool_id : json)
| RouterFailed (router_resp : str)
| ChatEnd
| Params (params : json)
| ConstructorFailed (const_resp : str)
| Result (mock_result : text)
| FinalMessage (final_resp : str)
| AnalysisHeader
| UserLine (user_input : str)
| Output (s : stage) (resp : str)
| Fetching
| ContentReceived
| Analysis (final_resp : str).

Inductive event : Type :=
| Post (r : request)
| Print (l : line).

(** [str(v)], as an f-string shows a decoded value, cannot be encoded
    only when [v] is itself a [str] that cannot: the items and keys of a
    [list] or a [dict] are shown by [repr], which escapes the
    surrogates. The interpreter's limits (the depth that [repr] can
    descend to) are left out, as they are for the decoder. *)
Definition unprintable_value (v : json) : bool :=
  match v with
  | JString s => unencodable s
  | _ => false
  end.

(** The lines that [print] cannot write. The standard output encodes as
    UTF-8, the interpreter's default, with the [strict] error handler: a
    line is refused when a value interpolated into it holds a surrogate.
    The fixed texts can all be encoded, and so can the utterance, which
    is a literal of the script ([verify_agent_flow.py] line 145,
    [verify_repo_analysis.py] line 78). *)
Definition unprintable (l : line) : bool :=
  match l with
  | Intent tool_id => unprintable_value tool_id
  | Params params => unprintable_value params
  | RouterFailed router_resp => unencodable router_resp
  | ConstructorFailed const_resp => unencodable const_resp
  | Result (BannerInserted tool_id color) =>
      unprintable_value tool_id || unprintable_value color
  | Result ReadmeContents => false
  | FinalMessage final_resp => unencodable final_resp
  | Output _ resp => unencodable resp
  | Analysis final_resp => unencodable final_resp
  | Header _ | UserLine _ => false
  | Rule | Banner _ | ChatEnd | AnalysisHeader | Fetching | ContentReceived => false
  end.

(** The exceptions of a run: a request that does not yield
    [choices[0].message.content]; [json.loads] on a text that is not
    JSON; [.get] on a value that is not a [dict]; [print] on a line that
    cannot be encoded. *)
Inductive exn : Type :=
| RequestError
| JSONDecodeError
| AttributeError
| UnicodeEncodeError.

Inductive result (A : Type) : Type :=
| Returned (a : A)
| Raised (e : exn).
Arguments Raised {A} e.

Module Run.
Section Monad.

  (** The backend is a state machine outside the script: a request
      changes its state and yields the reply's content, or fails. *)
Variable World : Type.
Variable backend : request -> World -> option str * World.

Record state : Type := { world : World; trace : list event }.

Definition M (A : Type) : Type := state -> result A * state.

Definition ret {A} (a : A) : M A := fun st => (Returned a, st).

Definition bind {A B} (c : M A) (k : A -> M B) : M B :=
    fun st =>
      match c st with
      | (Returned a, st') => k a st'
      | (Raised e, st') => (Raised e, st')
      end.

Definition raise {A} (e : exn) : M A := fun st => (Raised e, st).

Definition emit (e : event) : M unit :=
    fun st => (Returned tt, {| world := world st; trace := trace st ++ [e] |}).

  (** [print(...)]: the line is written whole, or, when it cannot be
      encoded, [UnicodeEncodeError] is raised and nothing is written. *)
Definition print (l : line) : M unit :=
    fun st =>
      if unprintable l then (Raised UnicodeEncodeError, st)
      else emit (Print l) st.

  (** [try: body except: handler], with the bare [except:] of the
      scripts: whatever the body raises is caught, what it did before
      stays done, and the handler runs in its place. *)
Definition try_except {A} (body handler : M A) : M A :=
    fun st =>
      match body st with
      | (Raised _, st') => handler st'
      | (Returned a, st') => (Returned a, st')
      end.

  (** [requests.post(URL, json=r).json()['choices'][0]['message']['content']] *)
Definition post (r : request) : M str :=
    fun st =>
      let (reply, w) := backend r (world st) in
      let st' := {| world := w; trace := trace st ++ [Post r] |} in
      match reply with
      | Some content => (Returned content, st')
      | None => (Raised RequestError, st')
      end.

Definition init (w : World) : state := {| world := w; trace := [] |}.

End Monad.
End Run.
Import Run.

Notation "x <- c ;; k" := (bind c (fun x => k))
  (at level 61, c at next level, right associativity).
Notation "c ;; k" := (bind c (fun _ => k))
  (at level 61, right associativity).

(** [v == s] for a decoded value [v] and a [str] [s]: only a [str] can
    equal a [str]. *)
Definition py_eq_str (v : json) (s : str) : bool :=
  match v with
  | JString x => PyStr.eqb x s
  | _ => false
  end.

Definition MODEL : str := lit "lfm2.5".

(** ** [verify_agent_flow.py] *)

Module AgentFlow.


Definition get_router_prompt : prompt := IntentClassifier.

Definition get_constructor_prompt (tool_id : json) : prompt :=
  ParamExtractor tool_id.

Definition get_responder_prompt (tool_name : json) (result : text)
    (user_input : str) : prompt :=
  Communicator tool_name result user_input.

Section Flow.

Variable World : Type.
Variable backend : request -> World -> option str * World.

  (** [json.loads], the standard library's decoder; [None] when it
      raises. *)
Variable json_loads : str -> option json.

  (** The inline parse of a reply:
      [json.loads(raw.replace('```json', '').replace('```', '').strip())],
      followed in every [try] body by a [.get] that only a [dict] has. *)
Definition parseJsonObject (raw : str) : option dict :=
    match json_loads (clean_json raw) with
    | Some (JObject d) => Some d
    | _ => None
    end.

  (** Lines 95-96, the body of the router's [try]:
      [router_json.get('tool', 'chat')]. *)
Definition router_try (router_resp : str) : option json :=
    match parseJsonObject router_resp with
    | Some router_json =>
        Some (dict_get router_json (lit "tool") (JString (lit "chat")))
    | None => None
    end.

  (** What the parse of a reply raises when it fails: [json.loads] its
      own error, the [.get] after it [AttributeError]. *)
Definition parse_error (raw : str) : exn :=
    match json_loads (clean_json raw) with
    | Some _ => AttributeError
    | None => JSONDecodeError
    end.

  (** Lines 84-100, the Router. The [print] of the decision (line 97)
      is inside the [try]; [None] is the [return] of the [except]
      branch, after its own [print] (line 99), which no [try] guards. *)
Definition route (user_input : str) : M World (option json) :=
    print (Banner ROUTER) ;;
    router_resp <- post backend
      {| model := MODEL;
         messages := [system get_router_prompt; user user_input];
         temperature := 0 |} ;;
    try_except
      match router_try router_resp with
      | Some tool_id => print (Intent tool_id) ;; ret (Some tool_id)
      | None => raise (parse_error router_resp)
      end
      (print (RouterFailed router_resp) ;; ret None).

  (** Lines 107-122, the Constructor, with the [print] of [params]
      (line 119) inside the [try]; [None] is the [return] of the
      [except] branch, after its [print] (line 121). *)
Definition construct (tool_id : json) (user_input : str)
    : M World (option dict) :=
    print (Banner CONSTRUCTOR) ;;
    const_resp <- post backend
      {| model := MODEL;
         messages := [system (get_constructor_prompt tool_id); user user_input];
         temperature := 0 |} ;;
    try_except
      match parseJsonObject const_resp with
      | Some const_json =>
          print (Params (dict_get const_json (lit "params") JNull)) ;;
          ret (Some const_json)
      | None => raise (parse_error const_resp)
      end
      (print (ConstructorFailed const_resp) ;; ret None).

  (** Line 126: [const_json.get('params', {}).get('color', 'auto')];
      [None] when [params] is not a [dict]. *)
Definition banner_color (const_json : dict) : option json :=
    match dict_get const_json (lit "params") (JObject []) with
    | JObject params => Some (dict_get params (lit "color") (JString (lit "auto")))
    | _ => None
    end.

  (** Lines 125-127, the simulated execution; no [try] guards it. *)
Definition execute (tool_id : json) (const_json : dict) : M World text :=
    print (Banner EXECUTION) ;;
    match banner_color const_json with
    | Some color =>
        let mock_result := BannerInserted tool_id color in
        print (Result mock_result) ;; ret mock_result
    | None => raise AttributeError
    end.

  (** Lines 130-142, the Responder. *)
Definition respond (tool_id : json) (mock_result : text) (user_input : str)
    : M World str :=
    print (Banner RESPONDER) ;;
    final_resp <- post backend
      {| model := MODEL;
         messages := [system (get_responder_prompt tool_id mock_result user_input);
                      user user_input];
         temperature := 7 # 10 |} ;;
    print (FinalMessage final_resp) ;;
    print Rule ;;
    ret final_resp.

  (** How a turn ended. *)
Inductive outcome : Type :=
  | RouterFailure      (** line 100 *)
  | Chat               (** line 104 *)
  | ConstructorFailure (** line 122 *)
  | Done (final_message : str).

Definition verify_flow (user_input : str) : M World outcome :=
    print (Header user_input) ;;
    print Rule ;;
    routed <- route user_input ;;
    match routed with
    | None => ret RouterFailure
    | Some tool_id =>
        if py_eq_str tool_id (lit "chat") then
          print ChatEnd ;; ret Chat
        else
          constructed <- construct tool_id user_input ;;
          match constructed with
          | None => ret ConstructorFailure
          | Some const_json =>
              mock_result <- execute tool_id const_json ;;
              final_resp <- respond tool_id mock_result user_input ;;
              ret (Done final_resp)
          end
    end.

End Flow.
End AgentFlow.

(** ** [verify_repo_analysis.py] *)

Module RepoAnalysis.

Definition get_router_prompt : prompt := RepoIntentClassifier.

Definition get_constructor_prompt (tool_id : json) : prompt :=
  if py_eq_str tool_id (lit "read_repo") then RepoExtractor else EmptyJsonTurn.

Definition get_responder_prompt (tool : json) (result : text)
    (user_input : str) : prompt :=
  CodeAssistant tool result user_input.

(** ["Analiza el repositorio intro-electron y dime qué hace"] *)
Definition USER_INPUT : str :=
  lit "Analiza el repositorio intro-electron y dime qu" ++ [233%N] ++ lit " hace".

Section Flow.

Variable World : Type.
Variable backend : request -> World -> option str * World.
Variable json_loads : str -> option json.

  (** Lines 90-93: [json.loads(...)['tool']], and ["read_repo"] when
      that raises (not JSON, not a [dict], or no such key). *)
Definition router_tool (router_resp : str) : json :=
    match json_loads (clean_json router_resp) with
    | Some (JObject d) =>
        match dict_lookup d (lit "tool") with
        | Some tool_id => tool_id
        | None => JString (lit "read_repo")
        end
    | _ => JString (lit "read_repo")
    end.

  (** Lines 74-120; the function returns [None]. *)
Definition verify_analysis_flow : M World unit :=
    print AnalysisHeader ;;
    print Rule ;;
    let user_input := USER_INPUT in
    print (UserLine user_input) ;;
    print (Banner ROUTER) ;;
    router_resp <- post backend
      {| model := MODEL;
         messages := [system get_router_prompt; user user_input];
         temperature := 0 |} ;;
    print (Output ROUTER router_resp) ;;
    let tool_id := router_tool router_resp in
    print (Banner CONSTRUCTOR) ;;
    const_resp <- post backend
      {| model := MODEL;
         messages := [system (get_constructor_prompt tool_id); user user_input];
         temperature := 0 |} ;;
    print (Output CONSTRUCTOR const_resp) ;;
    print (Banner EXECUTION) ;;
    print Fetching ;;
    let result := ReadmeContents in
    print ContentReceived ;;
    print (Banner RESPONDER) ;;
    final_resp <- post backend
      {| model := MODEL;
         messages := [system (get_responder_prompt tool_id result user_input);
                      user user_input];
         temperature := 7 # 10 |} ;;
    print (Analysis final_resp) ;;
    print Rule ;;
    ret tt.

End Flow.
End RepoAnalysis.

(** ** Reading a trace *)

Definition stage_eqb (a b : stage) : bool :=
  match a, b with
  | ROUTER, ROUTER | CONSTRUCTOR, CONSTRUCTOR
  | EXECUTION, EXECUTION | RESPONDER, RESPONDER => true
  | _, _ => false
  end.

(** The stage whose banner was printed has been entered. *)
Definition invoked (s : stage) (tr : list event) : bool :=
  existsb (fun e => match e with
                    | Print (Banner s') => stage_eqb s s'
                    | _ => false
                    end) tr.

(** The requests sent, in order. *)
Definition posts (tr : list event) : list request :=
  flat_map (fun e => match e with Post r => [r] | Print _ => [] end) tr.

(** The tool ids the Constructor was called with. *)
Definition constructor_ids (tr : list event) : list json :=
  flat_map (fun r => match messages r with
                     | system (ParamExtractor tool_id) :: _ => [tool_id]
                     | _ => []
                     end) (posts tr).

(** The simulated results that were built and shown. *)
Definition execution_results (tr : list event) : list text :=
  flat_map (fun e => match e with Print (Result r) => [r] | _ => [] end) tr.

(** The final messages shown. *)
Definition final_messages (tr : list event) : list str :=
  flat_map (fun e => match e with Print (FinalMessage m) => [m] | _ => [] end) tr.

(** The three requests of [verify_flow]. *)
Definition router_request (user_input : str) : request :=
  {| model := MODEL;
     messages := [system AgentFlow.get_router_prompt; user user_input];
     temperature := 0 |}.

Definition constructor_request (tool_id : json) (user_input : str) : request :=
  {| model := MODEL;
     messages := [system (AgentFlow.get_constructor_prompt tool_id); user user_input];
     temperature := 0 |}.

Definition responder_request (tool_id : json) (mock_result : text)
    (user_input : str) : request :=
  {| model := MODEL;
     messages := [system (AgentFlow.get_responder_prompt tool_id mock_result user_input);
                  user user_input];
     temperature := 7 # 10 |}.

(** ** Scripted backends for concrete runs *)

(** A backend without state that answers by the system prompt of the
    request: [r] to the Router, [c] to the Constructor and [f] to the
    Responder. *)
Definition scripted (r c f : str) (req : request) (w : unit) : option str * unit :=
  match messages req with
  | system IntentClassifier :: _ => (Some r, w)
  | system RepoIntentClassifier :: _ => (Some r, w)
  | system (ParamExtractor _) :: _ => (Some c, w)
  | system RepoExtractor :: _ => (Some c, w)
  | system EmptyJsonTurn :: _ => (Some c, w)
  | _ => (Some f, w)
  end.

(** A backend with state: the number of requests served so far selects
    the reply, so the same request is answered differently over time. *)
Definition alternating (a b : str) (req : request) (n : nat) : option str * nat :=
  (Some (if Nat.even n then a else b), S n).

Definition SHARK : str := lit "Pon un banner estilo shark color azul".

(** The reply of a model that wraps its answer [s] in a fenced block:
    the opening marker with the [json] tag, [s] on lines of its own, the
    closing marker. *)
Definition fence (s : str) : str :=
  FENCE_JSON ++ [10%N] ++ s ++ [10%N] ++ FENCE.

(** The same with any text [w1], [w2] between the markers and [s]. *)
Definition fence_with (w1 w2 s : str) : str :=
  FENCE_JSON ++ w1 ++ s ++ w2 ++ FENCE.

(** The number of backticks (code point 96) a text begins with. *)
Fixpoint lead (s : str) : nat :=
  match s with
  | c :: t => if (c =? 96)%N then S (lead t) else 0
  | [] => 0
  end.

(** [p in s], computed. *)
Fixpoint contains (p s : str) : bool :=
  match s with
  | [] => starts_with p []
  | _ :: t => starts_with p s || contains p t
  end.

(** [p.join(pieces)] *)
Fixpoint join (p : str) (pieces : list str) : str :=
  match pieces with
  | [] => []
  | a :: rest =>
      match rest with
      | [] => a
      | _ :: _ => a ++ p ++ join p rest
      end
  end.

(** [pieces] are the pieces that the matches of [p], taken from the
    left, cut [p.join(pieces)] into (what [str.split] returns, and
    what [str.replace] keeps): there is at least one piece; [p] begins
    nowhere in a piece that a match follows, so that this match is the
    first one after the piece before; and [p] does not occur in the
    last piece. *)
Fixpoint leftmost (p : str) (pieces : list str) : bool :=
  match pieces with
  | [] => false
  | a :: rest =>
      match rest with
      | [] => negb (contains p a)
      | _ :: _ => negb (contains p (a ++ removelast p)) && leftmost p rest
      end
  end.

(** The reading of the Response Parser in the design notes, to set
    beside [clean_json]: a marker is removed at the start of the text
    (with its [json] tag when it has one) and at the end, nowhere else;
    then the text is trimmed and decoded. *)
Definition strip_leading_marker (s : str) : str :=
  if starts_with FENCE_JSON s then skipn (length FENCE_JSON) s
  else if starts_with FENCE s then skipn (length FENCE) s
  else s.

Definition strip_trailing_marker (s : str) : str :=
  if starts_with (rev FENCE) (rev s) then rev (skipn (length FENCE) (rev s))
  else s.

Definition spec_clean_json (raw : str) : str :=
  strip (strip_trailing_marker (strip_leading_marker raw)).

Definition spec_parseJsonObject (json_loads : str -> option json) (raw : str)
  : option dict :=
  match json_loads (spec_clean_json raw) with
  | Some (JObject d) => Some d
  | _ => None
  end.

(** Modelled from the spec: the [required] fields of a tool's
    [paramSchema]. The scripts hold no schema; the descriptor of the
    design notes marks each parameter as required or not, and a
    [ParameterSet] is complete when its [params] has every required
    name. [required] is the list of those names. *)
Definition param_keys (const_json : dict) : list str :=
  match dict_lookup const_json (lit "params") with
  | Some (JObject params) => map fst params
  | _ => []
  end.

(** Modelled from the spec: the names in [IncompleteParameters.missing],
    the required fields that [params] lacks. *)
Definition missing (required : list str) (const_json : dict) : list str :=
  filter (fun k => negb (existsb (PyStr.eqb k) (param_keys const_json))) required.

(** A deterministic backend: the reply is a fixed function of the
    request, whatever happened before. *)
Definition deterministic {World : Type}
    (backend : request -> World -> option str * World) : Prop :=
  exists f : request -> option str, forall r w, fst (backend r w) = f r.

(** The three requests of [verify_analysis_flow]. *)
Definition analysis_router_request : request :=
  {| model := MODEL;
     messages := [system RepoAnalysis.get_router_prompt; user RepoAnalysis.USER_INPUT];
     temperature := 0 |}.

Definition analysis_constructor_request (tool_id : json) : request :=
  {| model := MODEL;
     messages := [system (RepoAnalysis.get_constructor_prompt tool_id);
                  user RepoAnalysis.USER_INPUT];
     temperature := 0 |}.

Definition analysis_responder_request (tool_id : json) : request :=
  {| model := MODEL;
     messages := [system (RepoAnalysis.get_responder_prompt tool_id ReadmeContents
                            RepoAnalysis.USER_INPUT);
                  user RepoAnalysis.USER_INPUT];
     temperature := 7 # 10 |}.

Import AgentFlow.

(** Utterances and backends of the concrete runs. *)
Definition HOLA : str := lit "Hola".

Definition TOOL_CHAT : str := dq "{'tool': 'chat'}".
Definition TOOL_WELCOME : str := dq "{'tool': 'welcome_header'}".
Definition NO_TOOL : str := dq "{'intent': 'greeting'}".
Definition SORRY : str := lit "Sorry, I cannot help".
Definition PARAMS_FULL : str :=
  dq "{'action': 'insert_banner', 'toolId': 'welcome_header', 'params': {'type': 'shark', 'color': 'blue'}}".
Definition LISTO : str := lit "Listo".

Definition WELCOME_HEADER : json := JString (lit "welcome_header").

(** A backend with state that is deterministic all the same: it counts
    the requests and always replies [reply]. *)
Definition counting (reply : str) (req : request) (n : nat) : option str * nat :=
  (Some reply, S n).

(** The stages entered, in the order of their banners. *)
Definition stages (tr : list event) : list stage :=
  flat_map (fun e => match e with Print (Banner s) => [s] | _ => [] end) tr.

(** [a] is [b] with some characters deleted. *)
Inductive subseq : str -> str -> Prop :=
| subseq_nil : subseq [] []
| subseq_keep (c : N) (a b : str) : subseq a b -> subseq (c :: a) (c :: b)
| subseq_drop (c : N) (a b : str) : subseq a b -> subseq a (c :: b).

(** A backend that never replies. *)
Definition unreachable (req : request) (w : unit) : option str * unit := (None, w).

(** A backend that replies the texts it holds, one for each request in
    turn, and then no more. *)
Definition replies (req : request) (pending : list str) : option str * list str :=
  match pending with
  | r :: rest => (Some r, rest)
  | [] => (None, [])
  end.

(** ** [goal_validator_demo.py] *)

Module GoalValidator.

Definition bug_keywords : list str :=
  [lit "bug"; lit "error"; lit "fallo"; lit "problema"].

(** The returned dict: [{"status": ..., "missing_verification": ...}]. *)
Record closure : Type := {
  status : str;
  missing_verification : list str
}.

Section Logic.

(** [str.lower()], the interpreter's. *)
Variable lower : str -> str.

(** [any(k in m.lower() for k in bug_keywords)] *)
Definition is_concern (m : str) : bool :=
  existsb (fun k => contains k (lower m)) bug_keywords.

Definition recent_concerns (messages : list str) : list str :=
  filter is_concern messages.

(** [any(item.lower() in concern.lower() for item in task_list)] *)
Definition reflected (task_list : list str) (concern : str) : bool :=
  existsb (fun item => contains (lower item) (lower concern)) task_list.

(** The [for] loop over the concerns, on [status] and [missing]. *)
Fixpoint check (task_list concerns : list str) (status : str) (missing : list str)
  : str * list str :=
  match concerns with
  | [] => (status, missing)
  | concern :: rest =>
      if negb (reflected task_list concern)
      then check task_list rest (lit "INCOMPLETE") (missing ++ [concern])
      else check task_list rest status missing
  end.

Definition verify_closure_logic (task_list messages : list str) : closure :=
  let (status, missing) :=
    check task_list (recent_concerns messages) (lit "OK") [] in
  {| status := status; missing_verification := missing |}.

End Logic.

(** [str.lower()] on ASCII text: the letters [A] to [Z] are lowered. *)
Definition ascii_lower (s : str) : str :=
  map (fun c => if ((65 <=? c) && (c <=? 90))%N then (c + 32)%N else c) s.

(** The data of the demonstration. *)
Definition sample_tasks : list str :=
  [lit "Bifurcate Skills"; lit "Update GEMINI.md"; lit "Implement Memory Logic"].
Definition sample_messages : list str :=
  [lit "Found a bug in the sidebar while refactoring"].

End GoalValidator.

(** ** Text and truth values of the interpreter *)

(** The code points of a literal written in UTF-8. *)
Fixpoint utf8_decode (bs : list N) : str :=
  match bs with
  | [] => []
  | b :: t =>
      if (b <? 128)%N then b :: utf8_decode t
      else if (b <? 224)%N then
        match t with
        | c1 :: t' => ((b - 192) * 64 + (c1 - 128))%N :: utf8_decode t'
        | [] => []
        end
      else if (b <? 240)%N then
        match t with
        | c1 :: c2 :: t' =>
            ((b - 224) * 4096 + (c1 - 128) * 64 + (c2 - 128))%N :: utf8_decode t'
        | _ => []
        end
      else
        match t with
        | c1 :: c2 :: c3 :: t' =>
            ((b - 240) * 262144 + (c1 - 128) * 4096 + (c2 - 128) * 64 + (c3 - 128))%N
              :: utf8_decode t'
        | _ => []
        end
  end.

Definition utf8 (s : string) : str := utf8_decode (lit s).

(** [float(text) == 0.0] for the text of a JSON number with a fraction
    or an exponent: the digits are all zero, or the number is at most
    half the least positive float, [2 ** -1075], and rounds to zero. The
    texts [NaN], [Infinity] and [-Infinity] are not zero. *)
Definition float_is_zero (text : str) : bool :=
  let t := match text with 45%N :: r => r | _ => text end in
  let (ip, r1) := Json.take_digits t in
  let (fr, r2) :=
    match r1 with
    | 46%N :: r => Json.take_digits r
    | _ => ([], r1)
    end in
  let ex : Z :=
    match r2 with
    | e :: r =>
        if ((e =? 101) || (e =? 69))%N then
          match r with
          | 45%N :: ds => (- Json.digits_value (fst (Json.take_digits ds)))%Z
          | 43%N :: ds => Json.digits_value (fst (Json.take_digits ds))
          | ds => Json.digits_value (fst (Json.take_digits ds))
          end
        else 0%Z
    | [] => 0%Z
    end in
  match ip ++ fr with
  | [] => false
  | ds =>
      let m := Json.digits_value ds in
      let e10 := (ex - Z.of_nat (length fr))%Z in
      ((m =? 0) || ((e10 <? 0) && (m * 2 ^ 1075 <=? 10 ^ (- e10))))%Z
  end.

(** [bool(v)] of a decoded value, as [if v:] and [if not v:] take it. *)
Definition truthy (v : json) : bool :=
  match v with
  | JNull => false
  | JBool b => b
  | JInt z => negb (z =? 0)%Z
  | JFloat text => negb (float_is_zero text)
  | JString s => match s with [] => false | _ :: _ => true end
  | JArray items => match items with [] => false | _ :: _ => true end
  | JObject members => match members with [] => false | _ :: _ => true end
  end.

(** A value that holds, anywhere in it, a text with a surrogate code
    point: it cannot be written as UTF-8. *)
Fixpoint has_surrogate (v : json) : bool :=
  match v with
  | JString s => existsb is_surrogate s
  | JArray items => existsb has_surrogate items
  | JObject members =>
      existsb (fun kv => existsb is_surrogate (fst kv) || has_surrogate (snd kv))
        members
  | _ => false
  end.

(** ** [stress_test_ai.py] *)

Module StressTest.

Definition PROMPT_FILE : str := lit "scripts/current_prompt.json".
Definition AUDIT_FILE : str := lit "scripts/audit_lfm25_results.json".

Definition SCENARIOS : list str :=
  [utf8 "Pon un título gigante que salude a mis visitantes";
   utf8 "Necesito una portada animada con mi nombre";
   utf8 "Quiero ver a la víbora comiendo mis commits";
   utf8 "Pon esa cosa que se mueve por el calendario de verde";
   utf8 "Muéstrame qué tan activo he sido con una tarjeta de datos";
   utf8 "Analiza mi rendimiento y ponlo en el readme";
   utf8 "Un pastel visual con mis tecnologías favoritas";
   utf8 "Crea un archivo LICENSE.md automático";
   utf8 "Dime un chiste sobre Java";
   utf8 "¿Puedes optimizar mi código?"].

(** The [payload]: the system prompt is whatever value was read from
    the prompt file. *)
Record payload : Type := {
  model : str;
  messages : list (str * json);
  temperature : Q
}.

(** What [requests.post] gives: nothing when it raises, else a status
    code and the [choices[0].message.content] of the body, [None] when
    reading it raises. *)
Inductive response : Type :=
| NoResponse
| Response (status_code : Z) (content : option json).

(** One item of [results]. *)
Record entry : Type := {
  input : str;
  response_of : json
}.

(** The lines printed; the elapsed time and the text of an exception
    (which names, with its escape, the character it is about) are left
    out of them. *)
Inductive line : Type :=
| Starting
| Dashes (n : nat)
| PromptNotFound
| Aborting
| Scenario (i n : nat) (user_input : str)
| Status (ok : bool)
| LogParsed (action toolId : json)
| LogRaw (head : json)
| ServerError (status_code : Z)
| Error
| Finished.

(** The lines that [print] cannot write: the two that show a value of
    the reply, when that value is a text with a surrogate. The
    scenarios are literals of the script, and can be printed. *)
Definition unprintable (l : line) : bool :=
  match l with
  | LogParsed action toolId => unprintable_value action || unprintable_value toolId
  | LogRaw head => unprintable_value head
  | _ => false
  end.

(** What a run does. [Dumped results]: [json.dump] wrote the whole text
    of [results] to the file that was opened last. [DumpedPart
    results]: it wrote the text of [results] up to the first text that
    cannot be encoded, and raised there; the file is left with that
    part, which is not a JSON value. *)
Inductive event : Type :=
| Posted (p : payload) (timeout : Z)
| Printed (l : line)
| Opened (path : str)
| Dumped (results : list entry)
| DumpedPart (results : list entry).

(** The prompt file: absent, not readable as UTF-8, or a text. *)
Inductive file : Type :=
| Absent
| Undecodable
| Holds (text : str).

(** The exceptions that end the script. *)
Inductive error : Type :=
| UnicodeDecodeError
| JSONDecodeError
| AttributeError
| UnicodeEncodeError.

Section Script.

Variable World : Type.
Variable backend : payload -> Z -> World -> response * World.
Variable json_loads : str -> option json.

Record state : Type := { world : World; events : list event }.

Definition say (l : line) (st : state) : state :=
  {| world := world st; events := events st ++ [Printed l] |}.

Definition open_file (path : str) (st : state) : state :=
  {| world := world st; events := events st ++ [Opened path] |}.

(** [get_live_prompt()]: [None] is [JNull]. A file that exists is
    opened, and then read and decoded by [json.load]. *)
Definition get_live_prompt (f : file) (st : state) : (json + error) * state :=
  match f with
  | Absent => (inl JNull, say PromptNotFound st)
  | Undecodable => (inr UnicodeDecodeError, open_file PROMPT_FILE st)
  | Holds text =>
      let st := open_file PROMPT_FILE st in
      match json_loads text with
      | None => (inr JSONDecodeError, st)
      | Some (JObject data) => (inl (dict_get data (lit "systemPrompt") JNull), st)
      | Some _ => (inr AttributeError, st)
      end
  end.

(** [raw_content[:40]], for the values that can be sliced. *)
Definition head40 (raw_content : json) : option json :=
  match raw_content with
  | JString s => Some (JString (firstn 40 s))
  | JArray items => Some (JArray (firstn 40 items))
  | _ => None
  end.

(** Lines 75-83, the inner [try]: the status, the details and [parsed];
    [None] when the handler itself raises, which the outer [except]
    catches. *)
Definition audit_reply (raw_content : json) : option (bool * line * json) :=
  let failed :=
    match head40 raw_content with
    | Some h => Some (false, LogRaw h, raw_content)
    | None => None
    end in
  match raw_content with
  | JString s =>
      match AgentFlow.parseJsonObject json_loads s with
      | Some parsed =>
          Some (true,
                LogParsed (dict_get parsed (lit "action") JNull)
                          (dict_get parsed (lit "toolId") JNull),
                JObject parsed)
      | None => failed
      end
  | _ => failed
  end.

(** Lines 56-100, the body of the loop: the response recorded for one
    scenario. The [print] of the log (line 86) is inside the outer
    [try]: when the line cannot be printed, the status has been shown,
    the outer [except] reports the error and ["ERROR"] is recorded. *)
Definition audit_scenario (system_prompt : json) (i n : nat) (user_input : str)
    (st : state) : entry * state :=
  let st := say (Scenario i n user_input) st in
  let payload :=
    {| model := lit "lfm2.5";
       messages := [(lit "system", system_prompt); (lit "user", JString user_input)];
       temperature := 0 |} in
  let (resp, w) := backend payload 30 (world st) in
  let st := {| world := w; events := events st ++ [Posted payload 30] |} in
  let (parsed, st) :=
    match resp with
    | NoResponse => (JString (lit "ERROR"), say Error st)
    | Response status_code content =>
        if (status_code =? 200)%Z then
          match content with
          | None => (JString (lit "ERROR"), say Error st)
          | Some raw_content =>
              match audit_reply raw_content with
              | Some (ok, details, parsed) =>
                  let st := say (Status ok) st in
                  if unprintable details then (JString (lit "ERROR"), say Error st)
                  else (parsed, say details st)
              | None => (JString (lit "ERROR"), say Error st)
              end
          end
        else (JString (lit "FAILED"), say (ServerError status_code) st)
    end in
  ({| input := user_input; response_of := parsed |}, say (Dashes 40) st).

(** [for i, user_input in enumerate(SCENARIOS, 1)], from index [i]. *)
Fixpoint audit_all (system_prompt : json) (n i : nat) (scenarios : list str)
    (results : list entry) (st : state) : list entry * state :=
  match scenarios with
  | [] => (results, st)
  | user_input :: rest =>
      let (e, st) := audit_scenario system_prompt i n user_input st in
      audit_all system_prompt n (S i) rest (results ++ [e]) st
  end.

Definition encodable (results : list entry) : bool :=
  negb (existsb (fun e => existsb is_surrogate (input e)
                          || has_surrogate (response_of e)) results).

(** [run_stress_test()]: [None] when it returns, the exception when it
    raises. The audit file is taken to be one that can be opened;
    opening it for writing empties it. Its text is written as UTF-8,
    piece by piece, and a surrogate code point stops the writing where
    it stands. *)
Definition run_stress_test (f : file) (w : World) : option error * state :=
  let st := {| world := w; events := [] |} in
  let st := say (Dashes 60) (say Starting st) in
  match get_live_prompt f st with
  | (inr e, st) => (Some e, st)
  | (inl system_prompt, st) =>
      if negb (truthy system_prompt) then (None, say Aborting st)
      else
        let (results, st) :=
          audit_all system_prompt (length SCENARIOS) 1 SCENARIOS [] st in
        let st := open_file AUDIT_FILE st in
        if encodable results then
          (None,
           say Finished {| world := world st; events := events st ++ [Dumped results] |})
        else
          (Some UnicodeEncodeError,
           {| world := world st; events := events st ++ [DumpedPart results] |})
  end.

End Script.

(** Reading a run. *)
Definition posted (evs : list event) : list (payload * Z) :=
  flat_map (fun e => match e with Posted p t => [(p, t)] | _ => [] end) evs.

Definition dumped (evs : list event) : list (list entry) :=
  flat_map (fun e => match e with Dumped r => [r] | _ => [] end) evs.

Definition dumped_in_part (evs : list event) : list (list entry) :=
  flat_map (fun e => match e with DumpedPart r => [r] | _ => [] end) evs.

Definition opened (evs : list event) : list str :=
  flat_map (fun e => match e with Opened p => [p] | _ => [] end) evs.

(** The request made for a scenario. *)
Definition scenario_payload (system_prompt : json) (user_input : str) : payload :=
  {| model := lit "lfm2.5";
     messages := [(lit "system", system_prompt); (lit "user", JString user_input)];
     temperature := 0 |}.

(** A backend that answers every request with status 200 and the same
    content. *)
Definition always (content : json) (p : payload) (timeout : Z) (w : unit)
  : response * unit :=
  (Response 200 (Some content), w).

(** A backend whose state says whether the server is broken: it
    answers with status 500 when it is, and with the text [FAILED]
    otherwise. *)
Definition flaky (p : payload) (timeout : Z) (broken : bool) : response * bool :=
  if broken then (Response 500 None, broken)
  else (Response 200 (Some (JString (lit "FAILED"))), broken).


(** A prompt file as the application exports it. *)
Definition PROMPT_TEXT : str := dq "{'systemPrompt': 'You ONLY output JSON.'}".

End StressTest.

(** ** [live_analysis_test.py] *)

Module LiveTest.

Definition GITHUB_USER : str := lit "mauro3422".
Definition MODEL : str := lit "lfm2.5".

(** What [requests.get] and [requests.post] give: nothing when the call
    raises, else a status code and what is read of the body, [None]
    when reading it raises. *)
Inductive response : Type :=
| NoResponse
| Response (status_code : Z) (body : option json).

(** The prompt of [analyze_with_ai]: the fixed text with the name of
    the repository and the part of the README put in. *)
Record review_prompt : Type := {
  project : json;
  readme : str
}.

Record payload : Type := {
  model : str;
  system_message : str;
  user_message : review_prompt;
  temperature : Q
}.

(** The text that [analyze_with_ai] returns: the content of the reply,
    or one of its two error texts. *)
Inductive analysis : Type :=
| Content (content : json)
| ServerErrorText (status_code : Z)
| ConnectionErrorText.

Inductive line : Type :=
| FetchingRepos
| GitHubError (status_code : Z)
| NetworkError
| Starting
| Rule
| Found (n : nat)
| NoRepositories
| Target (repo_name : json)
| SkippingAnalysis
| Sending (n : nat)
| Analyzing
| ReportHeader
| Report (a : analysis)
| Dashes.

(** The lines that [print] cannot write: the name of the target and
    the content of the model's reply, when they are texts with a
    surrogate. The two error texts of [analyze_with_ai] can be
    printed. *)
Definition unprintable (l : line) : bool :=
  match l with
  | Target repo_name => unprintable_value repo_name
  | Report (Content content) => unprintable_value content
  | _ => false
  end.

Inductive event : Type :=
| GotRepos
| GotReadme (repo_name : json)
| Posted (p : payload) (timeout : Z)
| Printed (l : line).

(** The exceptions of a subscript, of [len] and of [print]. *)
Inductive error : Type := TypeError | KeyError | IndexError | UnicodeEncodeError.

(** [v['name']] *)
Definition name_of (v : json) : json + error :=
  match v with
  | JObject d =>
      match dict_lookup d (lit "name") with
      | Some name => inl name
      | None => inr KeyError
      end
  | _ => inr TypeError
  end.

(** [next((r for r in repos if r['name'] == 'intro-electron'), None)]
    over the items of a list: the items are looked at one by one up to
    the first match; [None] is [JNull]. *)
Fixpoint find_intro_electron (items : list json) : json + error :=
  match items with
  | [] => inl JNull
  | r :: rest =>
      match name_of r with
      | inr e => inr e
      | inl name =>
          if py_eq_str name (lit "intro-electron") then inl r
          else find_intro_electron rest
      end
  end.

(** [len(v)] *)
Definition len (v : json) : nat + error :=
  match v with
  | JString s => inl (length s)
  | JArray items => inl (length items)
  | JObject d => inl (length d)
  | _ => inr TypeError
  end.

(** The items that [for r in v] goes through: the items of a list, the
    keys of a dict, the characters of a text. *)
Definition iterate (v : json) : list json :=
  match v with
  | JArray items => items
  | JObject d => map (fun kv => JString (fst kv)) d
  | JString s => map (fun c => JString [c]) s
  | _ => []
  end.

(** [v[0]] *)
Definition first_item (v : json) : json + error :=
  match v with
  | JArray (r :: _) => inl r
  | JArray [] => inr IndexError
  | JString (c :: _) => inl (JString [c])
  | JString [] => inr IndexError
  | JObject _ => inr KeyError
  | _ => inr TypeError
  end.

Section Script.

Variable World : Type.

(** [requests.get] on the list of repositories. *)
Variable github_repos : World -> response * World.

(** [get_real_readme], with its request and the Base64 decoding: the
    text, or [None] whatever fails in it. *)
Variable get_real_readme : json -> World -> option str * World.

(** [requests.post] to the local model. *)
Variable ai : payload -> Z -> World -> response * World.

Record state : Type := { world : World; events : list event }.

Definition say (l : line) (st : state) : state :=
  {| world := world st; events := events st ++ [Printed l] |}.

(** [get_real_repos()] *)
Definition get_real_repos (st : state) : json * state :=
  let st := say FetchingRepos st in
  let (resp, w) := github_repos (world st) in
  let st := {| world := w; events := events st ++ [GotRepos] |} in
  match resp with
  | NoResponse => (JArray [], say NetworkError st)
  | Response status_code body =>
      if negb (status_code =? 200)%Z then (JArray [], say (GitHubError status_code) st)
      else
        match body with
        | Some repos => (repos, st)
        | None => (JArray [], say NetworkError st)
        end
  end.

(** [analyze_with_ai(repo_name, readme_content)] *)
Definition analyze_with_ai (repo_name : json) (readme_content : str) (st : state)
  : analysis * state :=
  let st := say (Sending (length readme_content)) st in
  let prompt := {| project := repo_name; readme := firstn 3000 readme_content |} in
  let payload :=
    {| model := MODEL;
       system_message := lit "You are a helpful Code Analyst.";
       user_message := prompt;
       temperature := 7 # 10 |} in
  let (resp, w) := ai payload 60 (world st) in
  let st := {| world := w; events := events st ++ [Posted payload 60] |} in
  match resp with
  | NoResponse => (ConnectionErrorText, st)
  | Response status_code body =>
      if (status_code =? 200)%Z then
        match body with
        | Some content => (Content content, st)
        | None => (ConnectionErrorText, st)
        end
      else (ServerErrorText status_code, st)
  end.

(** Lines 91-106 of [run_live_test], once the name of the target is
    known. No [try] guards the [print] of the name (line 91) and of the
    analysis (line 105). *)
Definition report_on (repo_name : json) (st : state) : option error * state :=
  if unprintable (Target repo_name) then (Some UnicodeEncodeError, st)
  else
  let st := say (Target repo_name) st in
  let (readme, w) := get_real_readme repo_name (world st) in
  let st := {| world := w; events := events st ++ [GotReadme repo_name] |} in
  match readme with
  | None => (None, say SkippingAnalysis st)
  | Some [] => (None, say SkippingAnalysis st)
  | Some content =>
      let st := say Analyzing st in
      let (analysis, st) := analyze_with_ai repo_name content st in
      let st := say Dashes (say ReportHeader st) in
      if unprintable (Report analysis) then (Some UnicodeEncodeError, st)
      else (None, say Dashes (say (Report analysis) st))
  end.

(** [run_live_test()]: [None] when it returns, the exception when it
    raises. *)
Definition run_live_test (w : World) : option error * state :=
  let st := {| world := w; events := [] |} in
  let st := say Rule (say Starting st) in
  let (repos, st) := get_real_repos st in
  if negb (truthy repos) then (None, st)
  else
    match len repos with
    | inr e => (Some e, st)
    | inl n =>
        let st := say (Found n) st in
        match find_intro_electron (iterate repos) with
        | inr e => (Some e, st)
        | inl found =>
            let fallback :=
              if negb (truthy found) then
                if truthy repos then first_item repos else inl JNull
              else inl found in
            match fallback with
            | inr e => (Some e, st)
            | inl target_repo =>
                if negb (truthy target_repo) then (None, say NoRepositories st)
                else
                  match name_of target_repo with
                  | inr e => (Some e, st)
                  | inl repo_name => report_on repo_name st
                  end
            end
        end
    end.

End Script.

Definition printed (evs : list event) : list line :=
  flat_map (fun e => match e with Printed l => [l] | _ => [] end) evs.

Definition posted (evs : list event) : list (payload * Z) :=
  flat_map (fun e => match e with Posted p t => [(p, t)] | _ => [] end) evs.

(** The names of the repositories chosen for the analysis. *)
Definition selected (evs : list event) : list json :=
  flat_map (fun e => match e with Printed (Target n) => [n] | _ => [] end) evs.

(** An item of the list with a name other than [intro-electron]. *)
Definition other_repo (r : json) : Prop :=
  exists name, name_of r = inl name /\ py_eq_str name (lit "intro-electron") = false.

(** A repository as GitHub lists it, by its name. *)
Definition repo (name : string) : json :=
  JObject [(lit "id", JInt 1); (lit "name", JString (lit name))].

(** GitHub, the README and the model of the concrete runs. *)
Definition github (repos : json) (w : unit) : response * unit :=
  (Response 200 (Some repos), w).

Definition readme_is (content : option str) (repo_name : json) (w : unit)
  : option str * unit :=
  (content, w).

Definition ai_says (content : json) (p : payload) (timeout : Z) (w : unit)
  : response * unit :=
  (Response 200 (Some content), w).

End LiveTest.

(** * Properties *)

(** ** Text operations *)

Section Replace.

Variables old new : str.

Lemma starts_with_length (s : str) :
    starts_with old s = true -> length old <= length s.
Proof.
    revert s. induction old as [|a p IH]; intros s H; simpl in *.
    - lia.
    - destruct s as [|y s']; [discriminate|].
      apply andb_prop in H. destruct H as [_ H]. apply IH in H. simpl. lia.
Qed.

Lemma starts_with_app (s : str) : starts_with old (old ++ s) = true.
Proof.
    induction old as [|a p IH]; simpl; [reflexivity|].
    now rewrite N.eqb_refl, IH.
Qed.

  (** A character that [old] does not hold stops every match. *)
Lemma starts_with_app_sep (c : N) (s t : str) :
    ~ In c old -> starts_with old (s ++ c :: t) = starts_with old s.
Proof.
    revert s. induction old as [|a p IH]; intros s Hc; [reflexivity|].
    destruct s as [|y s']; simpl.
    - destruct (N.eqb_spec a c) as [->|_]; [|reflexivity].
      exfalso. apply Hc. now left.
    - rewrite IH; [reflexivity|]. intros Hin. apply Hc. now right.
Qed.

  (** Skipping [k] characters of a match is dropping them. *)
Lemma replace_from_skip (k : nat) (s : str) :
    replace_from old new k s = replace_from old new 0 (skipn k s).
Proof.
    revert k. induction s as [|c t IH]; intros [|k]; try reflexivity.
    simpl replace_from at 1. now rewrite IH.
Qed.

Lemma replace_from_hit (s : str) :
    old <> [] -> starts_with old s = true ->
    replace_from old new 0 s = new ++ replace_from old new 0 (skipn (length old) s).
Proof.
    intros Hne Hm.
    assert (Hl : length old = S (length old - 1))
      by (destruct old; [congruence | simpl; lia]).
    destruct s as [|c t].
    - exfalso. destruct old; [congruence | discriminate].
    - cbn [replace_from]. rewrite Hm, replace_from_skip.
      set (n := length old - 1) in *. rewrite Hl. reflexivity.
Qed.

Lemma replace_from_miss (c : N) (t : str) :
    starts_with old (c :: t) = false ->
    replace_from old new 0 (c :: t) = c :: replace_from old new 0 t.
Proof. intros Hm. cbn [replace_from]. now rewrite Hm. Qed.

Lemma replace_from_match (s : str) :
    old <> [] ->
    replace_from old new 0 (old ++ s) = new ++ replace_from old new 0 s.
Proof.
    intros Hne. rewrite replace_from_hit by (auto using starts_with_app).
    now rewrite skipn_app, skipn_all, Nat.sub_diag.
Qed.

Lemma starts_with_cons_other (c : N) (s : str) :
    old <> [] -> ~ In c old -> starts_with old (c :: s) = false.
Proof.
    intros Hne Hc. destruct old as [|a p]; [congruence|]. simpl.
    destruct (N.eqb_spec a c) as [->|_]; [|reflexivity].
    exfalso. apply Hc. now left.
Qed.

Lemma replace_from_cons_other (c : N) (s : str) :
    old <> [] -> ~ In c old ->
    replace_from old new 0 (c :: s) = c :: replace_from old new 0 s.
Proof.
    intros Hne Hc. apply replace_from_miss. now apply starts_with_cons_other.
Qed.

  (** No match crosses a character that [old] does not hold. *)
Lemma replace_from_app_sep (c : N) (t s : str) (k : nat) :
    ~ In c old -> k <= length s ->
    replace_from old new k (s ++ c :: t) =
    replace_from old new k s ++ replace_from old new 0 (c :: t).
Proof.
    intros Hc. revert k. induction s as [|x s' IH]; intros k Hk.
    - simpl in Hk. replace k with 0 by lia. reflexivity.
    - destruct k as [|k].
      + rewrite <- app_comm_cons. cbn [replace_from].
        rewrite (app_comm_cons s' (c :: t) x), starts_with_app_sep by assumption.
        destruct (starts_with old (x :: s')) eqn:Hm.
        * apply starts_with_length in Hm. simpl in Hm.
          rewrite IH by lia. now rewrite app_assoc.
        * rewrite IH by lia. reflexivity.
      + simpl in Hk. rewrite <- app_comm_cons. cbn [replace_from].
        apply IH. lia.
Qed.

End Replace.

Section ReplaceLast.

  (** [old] is [pre ++ [z]]: a text without [z] holds no end of a match. *)
Variables (pre : str) (z : N) (new : str).

Lemma starts_with_app_nolast (s t : str) :
    ~ In z t -> starts_with (pre ++ [z]) (s ++ t) = starts_with (pre ++ [z]) s.
Proof.
    revert s t. induction pre as [|a p IH]; intros s t Hz.
    - destruct s as [|y s']; [|reflexivity].
      destruct t as [|y t']; [reflexivity|]. simpl.
      destruct (N.eqb_spec z y) as [->|_]; [|reflexivity].
      exfalso. apply Hz. now left.
    - destruct s as [|y s']; simpl.
      + destruct t as [|y t']; [reflexivity|].
        assert (E : starts_with (p ++ [z]) ([] ++ t') = starts_with (p ++ [z]) [])
          by (apply IH; intros Hin; apply Hz; now right).
        simpl app in E at 2. rewrite E.
        destruct p; simpl; apply andb_false_r.
      + now rewrite IH.
Qed.

Lemma replace_from_absent (t : str) :
    ~ In z t -> replace_from (pre ++ [z]) new 0 t = t.
Proof.
    induction t as [|c t IH]; intros Hz; [reflexivity|].
    rewrite replace_from_miss.
    - rewrite IH; [reflexivity|]. intros Hin. apply Hz. now right.
    - change (c :: t) with ([] ++ c :: t). rewrite starts_with_app_nolast by assumption.
      destruct pre; reflexivity.
Qed.

Lemma replace_from_app_nolast (t s : str) (k : nat) :
    ~ In z t -> k <= length s ->
    replace_from (pre ++ [z]) new k (s ++ t) =
    replace_from (pre ++ [z]) new k s ++ t.
Proof.
    intros Hz. revert k. induction s as [|x s' IH]; intros k Hk.
    - simpl in Hk. replace k with 0 by lia. now apply replace_from_absent.
    - destruct k as [|k].
      + rewrite <- app_comm_cons. cbn [replace_from].
        rewrite (app_comm_cons s' t x), starts_with_app_nolast by assumption.
        destruct (starts_with (pre ++ [z]) (x :: s')) eqn:Hm.
        * apply starts_with_length in Hm. simpl in Hm.
          rewrite IH by lia. now rewrite app_assoc.
        * rewrite IH by lia. reflexivity.
      + simpl in Hk. rewrite <- app_comm_cons. cbn [replace_from].
        apply IH. lia.
Qed.

End ReplaceLast.

Lemma starts_with_app_r (p s t : str) :
  starts_with p s = true -> starts_with p (s ++ t) = true.
Proof.
  revert s. induction p as [|a p IH]; intros s H; [reflexivity|].
  destruct s as [|y s']; [discriminate|]. simpl in *.
  apply andb_prop in H. destruct H as [-> H]. now rewrite IH.
Qed.

(** ** The markers *)

Lemma replace_fence_json (s : str) :
  replace s FENCE_JSON [] = replace_from FENCE_JSON [] 0 s.
Proof. reflexivity. Qed.

Lemma replace_fence (s : str) :
  replace s FENCE [] = replace_from FENCE [] 0 s.
Proof. reflexivity. Qed.

Lemma starts_with_fence_lead (s : str) :
  starts_with FENCE s = (3 <=? lead s)%nat.
Proof.
  change FENCE with [96%N; 96%N; 96%N].
  destruct s as [|a [|b [|c s]]]; cbn [starts_with lead];
    rewrite ?(N.eqb_sym 96);
    repeat match goal with
           | |- context [(?x =? 96)%N] => destruct (x =? 96)%N; cbn [andb]
           end; reflexivity.
Qed.

(** A closing marker put after a text disappears with the marker's
    matches: the backticks that end the text and the three added ones
    are removed three at a time. *)
Lemma replace_fence_app_fence (s : str) :
  replace_from FENCE [] 0 (s ++ FENCE) = replace_from FENCE [] 0 s.
Proof.
  remember (length s) as n eqn:Hn. revert s Hn.
  induction n as [n IH] using lt_wf_ind. intros s Hn.
  destruct s as [|x s']; [reflexivity|].
  destruct (starts_with FENCE (x :: s')) eqn:Hm.
  - rewrite (@replace_from_hit FENCE [] ((x :: s') ++ FENCE))
      by (try discriminate; now apply starts_with_app_r).
    rewrite (@replace_from_hit FENCE [] (x :: s')) by (try discriminate; assumption).
    pose proof (starts_with_length _ _ Hm) as Hl.
    rewrite skipn_app.
    replace (length FENCE - length (x :: s')) with 0 by lia.
    cbn [skipn app].
    apply (IH (length (skipn (length FENCE) (x :: s')))); [|reflexivity].
    rewrite length_skipn. subst n. change (length FENCE) with 3 in *. simpl in *. lia.
  - destruct (starts_with FENCE ((x :: s') ++ FENCE)) eqn:Hm2.
    + change FENCE with [96%N; 96%N; 96%N] in *.
      destruct s' as [|y [|y' s'']]; cbn [starts_with app] in Hm, Hm2.
      * destruct (N.eqb_spec 96 x) as [<-|]; [reflexivity | discriminate].
      * destruct (N.eqb_spec 96 x) as [<-|]; [|discriminate].
        destruct (N.eqb_spec 96 y) as [<-|]; [reflexivity | discriminate].
      * congruence.
    + rewrite <- app_comm_cons in *. rewrite !replace_from_miss by assumption.
      f_equal. apply (IH (length s')); [subst n; simpl; lia | reflexivity].
Qed.

(** White space is neither a backtick nor a letter of [json]. *)
Lemma isspace_not_in_fence_json (c : N) :
  isspace c = true -> ~ In c FENCE_JSON.
Proof.
  intros H Hin. vm_compute in Hin.
  repeat (destruct Hin as [<-|Hin]; [discriminate H|]). exact Hin.
Qed.

Lemma isspace_not_in_fence (c : N) :
  isspace c = true -> ~ In c FENCE.
Proof.
  intros H Hin. vm_compute in Hin.
  repeat (destruct Hin as [<-|Hin]; [discriminate H|]). exact Hin.
Qed.

Lemma replace_from_spaces (old : str) (w s : str) :
  old <> [] -> (forall c, isspace c = true -> ~ In c old) ->
  forallb isspace w = true ->
  replace_from old [] 0 (w ++ s) = w ++ replace_from old [] 0 s.
Proof.
  intros Hne Hold. induction w as [|c w IH]; intros Hw; [reflexivity|].
  simpl in Hw. apply andb_prop in Hw. destruct Hw as [Hc Hw].
  rewrite <- app_comm_cons, replace_from_cons_other by auto.
  now rewrite IH.
Qed.

(** ** [strip] *)

Lemma lstrip_spaces (w s : str) :
  forallb isspace w = true -> lstrip (w ++ s) = lstrip s.
Proof.
  induction w as [|c w IH]; intros Hw; [reflexivity|].
  simpl in Hw. apply andb_prop in Hw. destruct Hw as [Hc Hw].
  simpl. rewrite Hc. now apply IH.
Qed.

Lemma lstrip_all_spaces (w : str) :
  forallb isspace w = true -> lstrip w = [].
Proof.
  intros Hw. rewrite <- (app_nil_r w), lstrip_spaces by assumption. reflexivity.
Qed.

(** White space after the text stays unless nothing else is left. *)
Lemma lstrip_app_spaces (s w : str) :
  forallb isspace w = true ->
  lstrip (s ++ w) = match lstrip s with [] => [] | _ :: _ => lstrip s ++ w end.
Proof.
  intros Hw. induction s as [|c s IH]; simpl.
  - now apply lstrip_all_spaces.
  - destruct (isspace c); [assumption | reflexivity].
Qed.

Lemma lstrip_suffix (s : str) : exists w, s = w ++ lstrip s.
Proof.
  induction s as [|c s [w IH]]; simpl.
  - now exists [].
  - destruct (isspace c).
    + exists (c :: w). simpl. now f_equal.
    + now exists [].
Qed.

Lemma lstrip_head (s : str) (c : N) (r : str) :
  lstrip s = c :: r -> isspace c = false.
Proof.
  induction s as [|x s IH]; simpl; [discriminate|].
  destruct (isspace x) eqn:Hx; [assumption|].
  intros E. injection E as -> _. assumption.
Qed.

Lemma rstrip_prefix (s : str) : exists w, s = rstrip s ++ w.
Proof.
  unfold rstrip. destruct (lstrip_suffix (rev s)) as [w E].
  exists (rev w). rewrite <- rev_app_distr, <- E. symmetry. apply rev_involutive.
Qed.

Lemma forallb_rev {A} (f : A -> bool) (l : list A) :
  forallb f (rev l) = forallb f l.
Proof.
  induction l as [|a l IH]; [reflexivity|].
  simpl. rewrite forallb_app, IH. simpl. rewrite andb_true_r. apply andb_comm.
Qed.

Lemma rstrip_spaces (s w : str) :
  forallb isspace w = true -> rstrip (s ++ w) = rstrip s.
Proof.
  intros Hw. unfold rstrip. rewrite rev_app_distr, lstrip_spaces; [reflexivity|].
  now rewrite forallb_rev.
Qed.

(** [strip] does not see the white space around a text. *)
Lemma strip_spaces (w1 w2 s : str) :
  forallb isspace w1 = true -> forallb isspace w2 = true ->
  strip (w1 ++ s ++ w2) = strip s.
Proof.
  intros H1 H2. unfold strip.
  rewrite app_assoc, rstrip_spaces by assumption.
  unfold rstrip. rewrite rev_app_distr.
  rewrite lstrip_app_spaces by (now rewrite forallb_rev).
  destruct (lstrip (rev s)) as [|c r] eqn:E; [reflexivity|].
  rewrite rev_app_distr, rev_involutive. now apply lstrip_spaces.
Qed.

Lemma strip_head (s : str) (c : N) (r : str) :
  strip s = c :: r -> isspace c = false.
Proof. apply lstrip_head. Qed.

Lemma strip_last (s : str) (c : N) (r : str) :
  strip s = r ++ [c] -> isspace c = false.
Proof.
  unfold strip. intros E.
  destruct (lstrip_suffix (rstrip s)) as [w Hw]. rewrite E in Hw.
  unfold rstrip in Hw.
  apply (f_equal (@rev N)) in Hw.
  rewrite rev_involutive, app_assoc, rev_app_distr in Hw. simpl in Hw.
  now apply lstrip_head in Hw.
Qed.

Lemma occurs_strip (p s : str) : occurs p (strip s) -> occurs p s.
Proof.
  unfold strip. intros (a & b & E).
  destruct (lstrip_suffix (rstrip s)) as [w1 H1].
  destruct (rstrip_prefix s) as [w2 H2].
  exists (w1 ++ a), (b ++ w2).
  rewrite H2, H1, E. now rewrite <- !app_assoc.
Qed.

(** ** What the cleaning leaves *)

Lemma contains_starts_with (p s : str) :
  starts_with p s = true -> contains p s = true.
Proof.
  intros H. destruct s as [|c t]; simpl; [assumption|].
  rewrite H. reflexivity.
Qed.

Lemma occurs_contains (p s : str) : occurs p s -> contains p s = true.
Proof.
  intros (a & b & ->). induction a as [|c a IH].
  - cbn [app]. apply contains_starts_with, starts_with_app.
  - simpl. simpl in IH. rewrite IH. apply orb_true_r.
Qed.

Lemma lead_replace_fence (s : str) :
  lead (replace_from FENCE [] 0 s) <= lead s.
Proof.
  remember (length s) as n eqn:Hn. revert s Hn.
  induction n as [n IH] using lt_wf_ind. intros s Hn.
  destruct s as [|x s']; [reflexivity|].
  destruct (starts_with FENCE (x :: s')) eqn:Hm.
  - rewrite replace_from_hit by (try discriminate; assumption).
    cbn [app]. change (length FENCE) with 3.
    assert (Hs : lead (skipn 3 (x :: s')) <= lead (x :: s')).
    { rewrite starts_with_fence_lead in Hm. apply Nat.leb_le in Hm.
      destruct s' as [|y [|y' s'']]; cbn [lead skipn] in *;
        repeat match goal with
               | H : context [(?c =? 96)%N] |- _ => destruct (c =? 96)%N
               end; lia. }
    etransitivity; [|exact Hs].
    apply (IH (length (skipn 3 (x :: s')))); [|reflexivity].
    rewrite length_skipn. subst n. simpl. lia.
  - rewrite replace_from_miss by assumption. cbn [lead].
    destruct (x =? 96)%N; [|lia].
    apply le_n_S. apply (IH (length s')); [subst n; simpl; lia | reflexivity].
Qed.

(** After [replace('```', '')] no three backticks stand together. *)
Lemma replace_fence_no_fence (s : str) :
  contains FENCE (replace_from FENCE [] 0 s) = false.
Proof.
  remember (length s) as n eqn:Hn. revert s Hn.
  induction n as [n IH] using lt_wf_ind. intros s Hn.
  destruct s as [|x s']; [reflexivity|].
  destruct (starts_with FENCE (x :: s')) eqn:Hm.
  - rewrite replace_from_hit by (try discriminate; assumption).
    cbn [app]. apply (IH (length (skipn (length FENCE) (x :: s')))); [|reflexivity].
    rewrite length_skipn. subst n. change (length FENCE) with 3. simpl. lia.
  - rewrite replace_from_miss by assumption. cbn [contains].
    rewrite (IH (length s')) by (subst n; simpl; lia || reflexivity).
    rewrite orb_false_r.
    rewrite starts_with_fence_lead in *.
    apply Nat.leb_gt in Hm. apply Nat.leb_gt.
    pose proof (lead_replace_fence s') as Hle.
    cbn [lead] in *. destruct (x =? 96)%N; lia.
Qed.

(** ** The turn *)

Ltac run :=
  unfold verify_flow, route, construct, execute, respond, try_except,
    bind, ret, raise, print, emit, post, init;
  cbn [world trace app fst snd unprintable].

Section Turn.

Variable World : Type.
Variable backend : request -> World -> option str * World.
Variable json_loads : str -> option json.

Local Abbreviation route := (route backend json_loads).
Local Abbreviation construct := (construct backend json_loads).
Local Abbreviation verify_flow := (verify_flow backend json_loads).
Local Abbreviation router_try := (router_try json_loads).
Local Abbreviation parseJsonObject := (parseJsonObject json_loads).

(** A run of the Router, from the backend's reply. The [except] branch
    is taken when the reply does not decode to an object and when the
    decision cannot be printed; its own [print] can fail in turn. *)
Lemma route_run (u : str) (st : state World) :
  route u st =
  let (r, w') := backend (router_request u) (world st) in
  let tr := (trace st ++ [Print (Banner ROUTER)]) ++ [Post (router_request u)] in
  match r with
  | None => (Raised RequestError, {| world := w'; trace := tr |})
  | Some resp =>
      let router_failed :=
        if unprintable (RouterFailed resp)
        then (Raised UnicodeEncodeError, {| world := w'; trace := tr |})
        else (Returned None,
              {| world := w'; trace := tr ++ [Print (RouterFailed resp)] |}) in
      match router_try resp with
      | Some tool_id =>
          if unprintable (Intent tool_id) then router_failed
          else (Returned (Some tool_id),
                {| world := w'; trace := tr ++ [Print (Intent tool_id)] |})
      | None => router_failed
      end
  end.
Proof.
  run. change {| model := MODEL; messages := _; temperature := _ |}
    with (router_request u).
  destruct (backend (router_request u) (world st)) as [[resp|] w']; [|reflexivity].
  cbn [world trace].
  destruct (router_try resp) as [tool_id|].
  - destruct (unprintable_value tool_id); [|reflexivity].
    cbn [world trace]. destruct (unencodable resp); reflexivity.
  - cbn [world trace]. destruct (unencodable resp); reflexivity.
Qed.


(** The whole turn, by cases on the three replies and on the lines that
    can be printed. *)
Lemma verify_flow_run (u : str) (w : World) :
  verify_flow u (init w) =
  let t1 := [Print (Header u); Print Rule; Print (Banner ROUTER);
             Post (router_request u)] in
  match backend (router_request u) w with
  | (None, w1) => (Raised RequestError, {| world := w1; trace := t1 |})
  | (Some r1, w1) =>
      let router_failed :=
        if unprintable (RouterFailed r1)
        then (Raised UnicodeEncodeError, {| world := w1; trace := t1 |})
        else (Returned RouterFailure,
              {| world := w1; trace := t1 ++ [Print (RouterFailed r1)] |}) in
      match router_try r1 with
      | None => router_failed
      | Some tool_id =>
          if unprintable (Intent tool_id) then router_failed
          else if py_eq_str tool_id (lit "chat") then
            (Returned Chat,
             {| world := w1; trace := t1 ++ [Print (Intent tool_id); Print ChatEnd] |})
          else
            let t2 := t1 ++ [Print (Intent tool_id); Print (Banner CONSTRUCTOR);
                             Post (constructor_request tool_id u)] in
            match backend (constructor_request tool_id u) w1 with
            | (None, w2) => (Raised RequestError, {| world := w2; trace := t2 |})
            | (Some r2, w2) =>
                let constructor_failed :=
                  if unprintable (ConstructorFailed r2)
                  then (Raised UnicodeEncodeError, {| world := w2; trace := t2 |})
                  else (Returned ConstructorFailure,
                        {| world := w2;
                           trace := t2 ++ [Print (ConstructorFailed r2)] |}) in
                match parseJsonObject r2 with
                | None => constructor_failed
                | Some const_json =>
                    let params := dict_get const_json (lit "params") JNull in
                    if unprintable (Params params) then constructor_failed
                    else
                    let t3 := t2 ++ [Print (Params params); Print (Banner EXECUTION)] in
                    match banner_color const_json with
                    | None => (Raised AttributeError, {| world := w2; trace := t3 |})
                    | Some color =>
                        let res := BannerInserted tool_id color in
                        if unprintable (Result res)
                        then (Raised UnicodeEncodeError, {| world := w2; trace := t3 |})
                        else
                        let t4 := t3 ++
                          [Print (Result res); Print (Banner RESPONDER);
                           Post (responder_request tool_id res u)] in
                        match backend (responder_request tool_id res u) w2 with
                        | (None, w3) =>
                            (Raised RequestError, {| world := w3; trace := t4 |})
                        | (Some r3, w3) =>
                            if unprintable (FinalMessage r3)
                            then (Raised UnicodeEncodeError,
                                  {| world := w3; trace := t4 |})
                            else (Returned (Done r3),
                                  {| world := w3;
                                     trace := t4 ++ [Print (FinalMessage r3); Print Rule] |})
                        end
                    end
                end
            end
      end
  end.
Proof.
  run. unfold router_request, constructor_request, responder_request.
  destruct (backend _ w) as [[r1|] w1]; [|reflexivity].
  cbn [world trace app].
  destruct (router_try r1) as [tool_id|];
    [|cbn [world trace app]; destruct (unencodable r1); reflexivity].
  destruct (unprintable_value tool_id) eqn:Ht;
    [cbn [world trace app]; destruct (unencodable r1); reflexivity|].
  cbn [world trace app].
  destruct (py_eq_str tool_id (lit "chat")); [reflexivity|].
  cbn [world trace app].
  destruct (backend _ w1) as [[r2|] w2]; [|reflexivity].
  cbn [world trace app].
  destruct (parseJsonObject r2) as [const_json|];
    [|cbn [world trace app]; destruct (unencodable r2); reflexivity].
  cbv zeta.
  destruct (unprintable_value (dict_get const_json (lit "params") JNull));
    [cbn [world trace app]; destruct (unencodable r2); reflexivity|].
  cbn [world trace app].
  destruct (banner_color const_json) as [color|]; [|reflexivity].
  cbn [world trace app unprintable]. rewrite Ht. cbn [orb].
  destruct (unprintable_value color); [reflexivity|].
  cbn [world trace app].
  destruct (backend _ w2) as [[r3|] w3]; [|reflexivity].
  cbn [world trace app].
  destruct (unencodable r3); reflexivity.
Qed.

(** What the Router decides is what [route] returns in the turn: the
    trace before it does not matter. *)
Lemma route_fst (u : str) (st : state World) :
  fst (route u st) = fst (route u (init (world st))).
Proof.
  rewrite !route_run. cbn [world init].
  destruct (backend (router_request u) (world st)) as [[resp|] w']; [|reflexivity].
  cbv zeta.
  destruct (router_try resp) as [tool_id|];
    [destruct (unprintable (Intent tool_id))|];
    destruct (unprintable (RouterFailed resp)); reflexivity.
Qed.

(** C4. In every turn in which the Router's decision is ["chat"], the
    turn ends right after the Router on the chat path: the only request
    sent is the Router's, and neither the Constructor, nor the simulated
    execution, nor the Responder is entered; no execution result is
    built. *)
Theorem chat_decision_ends_the_turn (u : str) (w : World) (tool_id : json)
    (st : state World) :
  route u (init w) = (Returned (Some tool_id), st) ->
  py_eq_str tool_id (lit "chat") = true ->
  verify_flow u (init w) =
    (Returned Chat,
     {| world := world st;
        trace := [Print (Header u); Print Rule] ++ trace st ++ [Print ChatEnd] |}) /\
  posts (trace (snd (verify_flow u (init w)))) = [router_request u] /\
  invoked CONSTRUCTOR (trace (snd (verify_flow u (init w)))) = false /\
  invoked EXECUTION (trace (snd (verify_flow u (init w)))) = false /\
  invoked RESPONDER (trace (snd (verify_flow u (init w)))) = false /\
  execution_results (trace (snd (verify_flow u (init w)))) = [].
Proof.
  intros Hr Hchat. rewrite route_run in Hr. rewrite verify_flow_run.
  cbn [init world trace app] in Hr.
  destruct (backend (router_request u) w) as [[r1|] w1]; [|discriminate].
  cbv zeta in Hr |- *.
  destruct (router_try r1) as [t|].
  - destruct (unprintable (Intent t)).
    + destruct (unprintable (RouterFailed r1)); discriminate.
    + injection Hr as -> <-. rewrite Hchat. cbn [world trace app snd].
      repeat split.
  - destruct (unprintable (RouterFailed r1)); discriminate.
Qed.

(** C10. When the Router's reply decodes to a JSON object without a
    [tool] field, the decision is ["chat"], silently: nothing is
    reported as a failure, the turn ends on the chat path, and neither
    the Constructor nor the simulated execution is entered. *)
Theorem missing_tool_field_is_chat (u : str) (w w' : World) (resp : str) (d : dict) :
  backend (router_request u) w = (Some resp, w') ->
  json_loads (clean_json resp) = Some (JObject d) ->
  dict_lookup d (lit "tool") = None ->
  fst (route u (init w)) = Returned (Some (JString (lit "chat"))) /\
  verify_flow u (init w) =
    (Returned Chat,
     {| world := w';
        trace := [Print (Header u); Print Rule; Print (Banner ROUTER);
                  Post (router_request u);
                  Print (Intent (JString (lit "chat"))); Print ChatEnd] |}) /\
  invoked CONSTRUCTOR (trace (snd (verify_flow u (init w)))) = false /\
  invoked EXECUTION (trace (snd (verify_flow u (init w)))) = false.
Proof.
  intros Hb Hj Ht.
  assert (Hrt : router_try resp = Some (JString (lit "chat"))).
  { unfold AgentFlow.router_try, AgentFlow.parseJsonObject, dict_get.
    now rewrite Hj, Ht. }
  rewrite route_run, verify_flow_run. cbn [init world].
  rewrite Hb, Hrt. cbv zeta.
  change (unprintable (Intent (JString (lit "chat")))) with false.
  repeat split.
Qed.





(** C8. The Router's one request has temperature 0.0, whatever the
    backend is and does; and against a deterministic backend two runs
    of [route] on the same utterance, from any two states, end alike,
    with the same decision. *)
Theorem route_is_deterministic (u : str) (st1 st2 : state World) :
  map temperature (posts (trace (snd (route u (init (world st1)))))) = [0%Q] /\
  (deterministic backend -> fst (route u st1) = fst (route u st2)).
Proof.
  split.
  - rewrite route_run. cbn [init world trace app].
    destruct (backend (router_request u) (world st1)) as [[resp|] w1];
      [|reflexivity].
    cbv zeta.
    destruct (router_try resp) as [tool_id|];
      [destruct (unprintable (Intent tool_id))|];
      destruct (unprintable (RouterFailed resp)); reflexivity.
  - intros [f Hf]. rewrite !route_run.
    pose proof (Hf (router_request u) (world st1)) as E1.
    pose proof (Hf (router_request u) (world st2)) as E2.
    destruct (backend (router_request u) (world st1)) as [o1 w1].
    destruct (backend (router_request u) (world st2)) as [o2 w2].
    cbn [fst] in E1, E2. subst o1 o2.
    destruct (f (router_request u)) as [resp|]; [|reflexivity].
    cbv zeta.
    destruct (router_try resp) as [tool_id|];
      [destruct (unprintable (Intent tool_id))|];
      destruct (unprintable (RouterFailed resp)); reflexivity.
Qed.


(** The whole run of [verify_analysis_flow], by cases on the three
    replies; each of them is printed as it is. *)
Lemma verify_analysis_flow_run (w : World) :
  RepoAnalysis.verify_analysis_flow backend json_loads (init w) =
  let t1 := [Print AnalysisHeader; Print Rule; Print (UserLine RepoAnalysis.USER_INPUT);
             Print (Banner ROUTER); Post analysis_router_request] in
  match backend analysis_router_request w with
  | (None, w1) => (Raised RequestError, {| world := w1; trace := t1 |})
  | (Some r1, w1) =>
      if unprintable (Output ROUTER r1)
      then (Raised UnicodeEncodeError, {| world := w1; trace := t1 |})
      else
      let tool_id := RepoAnalysis.router_tool json_loads r1 in
      let t2 := t1 ++ [Print (Output ROUTER r1); Print (Banner CONSTRUCTOR);
                       Post (analysis_constructor_request tool_id)] in
      match backend (analysis_constructor_request tool_id) w1 with
      | (None, w2) => (Raised RequestError, {| world := w2; trace := t2 |})
      | (Some r2, w2) =>
          if unprintable (Output CONSTRUCTOR r2)
          then (Raised UnicodeEncodeError, {| world := w2; trace := t2 |})
          else
          let t3 := t2 ++ [Print (Output CONSTRUCTOR r2); Print (Banner EXECUTION);
                           Print Fetching; Print ContentReceived;
                           Print (Banner RESPONDER);
                           Post (analysis_responder_request tool_id)] in
          match backend (analysis_responder_request tool_id) w2 with
          | (None, w3) => (Raised RequestError, {| world := w3; trace := t3 |})
          | (Some r3, w3) =>
              if unprintable (Analysis r3)
              then (Raised UnicodeEncodeError, {| world := w3; trace := t3 |})
              else (Returned tt,
                    {| world := w3;
                       trace := t3 ++ [Print (Analysis r3); Print Rule] |})
          end
      end
  end.
Proof.
  unfold RepoAnalysis.verify_analysis_flow, bind, ret, print, emit, post, init.
  unfold analysis_router_request, analysis_constructor_request,
    analysis_responder_request.
  cbn [world trace app unprintable].
  destruct (backend _ w) as [[r1|] w1]; [|reflexivity].
  cbn [world trace app].
  destruct (unencodable r1); [reflexivity|].
  cbn [world trace app].
  destruct (backend _ w1) as [[r2|] w2]; [|reflexivity].
  cbn [world trace app].
  destruct (unencodable r2); [reflexivity|].
  cbn [world trace app].
  destruct (backend _ w2) as [[r3|] w3]; [|reflexivity].
  cbn [world trace app].
  destruct (unencodable r3); reflexivity.
Qed.


End Turn.

(** ** The fenced reply *)

Lemma forallb_isspace_not_in (old w : str) (c : N) :
  (forall x, isspace x = true -> ~ In x old) ->
  forallb isspace w = true -> In c old -> ~ In c w.
Proof.
  intros Hold Hw Hc Hin.
  rewrite forallb_forall in Hw. exact (Hold c (Hw c Hin) Hc).
Qed.

(** The two replacements on a fenced text: both markers go, the text
    between them is treated as it is alone. *)
Lemma replace_fence_with (w1 w2 s : str) :
  forallb isspace w1 = true -> forallb isspace w2 = true ->
  replace (replace (fence_with w1 w2 s) FENCE_JSON []) FENCE [] =
  w1 ++ replace (replace s FENCE_JSON []) FENCE [] ++ w2.
Proof.
  intros H1 H2. unfold fence_with. rewrite !replace_fence_json, !replace_fence.
  assert (Hfj : FENCE_JSON <> []) by discriminate.
  assert (Hf : FENCE <> []) by discriminate.
  rewrite replace_from_match by assumption. cbn [app].
  rewrite replace_from_spaces by (auto using isspace_not_in_fence_json).
  change FENCE_JSON with (lit "```jso" ++ [110%N]) at 1.
  rewrite replace_from_app_nolast; [| |lia].
  2:{ intros Hin. apply in_app_or in Hin. destruct Hin as [Hin|Hin].
      - revert Hin. apply (@forallb_isspace_not_in FENCE_JSON w2 110%N);
          auto using isspace_not_in_fence_json.
        vm_compute. tauto.
      - vm_compute in Hin. repeat (destruct Hin as [Hin|Hin]; [discriminate|]).
        exact Hin. }
  change (lit "```jso" ++ [110%N]) with FENCE_JSON.
  rewrite replace_from_spaces by (auto using isspace_not_in_fence).
  f_equal.
  destruct w2 as [|c w2].
  - cbn [app]. rewrite app_nil_r. apply replace_fence_app_fence.
  - simpl in H2. apply andb_prop in H2. destruct H2 as [Hc H2].
    rewrite <- app_comm_cons.
    rewrite replace_from_app_sep by (auto using isspace_not_in_fence; lia).
    f_equal.
    rewrite replace_from_cons_other by (auto using isspace_not_in_fence).
    f_equal.
    rewrite replace_from_spaces by (auto using isspace_not_in_fence).
    change (replace_from FENCE [] 0 FENCE) with (@nil N). apply app_nil_r.
Qed.

Lemma clean_json_fence_with (w1 w2 s : str) :
  forallb isspace w1 = true -> forallb isspace w2 = true ->
  clean_json (fence_with w1 w2 s) = clean_json s.
Proof.
  intros H1 H2. unfold clean_json.
  rewrite replace_fence_with by assumption. now apply strip_spaces.
Qed.

(** C6. For every text [s], the fenced [s] is cleaned to the same text
    as [s], so the parse of the one is the parse of the other, whatever
    the decoder does. *)
Theorem fenced_reply_parses_alike (json_loads : str -> option json) (s : str) :
  clean_json (fence s) = clean_json s /\
  parseJsonObject json_loads (fence s) = parseJsonObject json_loads s.
Proof.
  assert (E : clean_json (fence s) = clean_json s)
    by (apply (@clean_json_fence_with [10%N] [10%N] s); reflexivity).
  split; [exact E|]. unfold parseJsonObject. now rewrite E.
Qed.

(** The same for markers put right against the text. *)
Lemma tightly_fenced_reply_parses_alike (json_loads : str -> option json) (s : str) :
  parseJsonObject json_loads (FENCE_JSON ++ s ++ FENCE) = parseJsonObject json_loads s.
Proof.
  unfold parseJsonObject.
  change (FENCE_JSON ++ s ++ FENCE) with (fence_with [] [] s).
  now rewrite clean_json_fence_with.
Qed.

(** ** What reaches the decoder *)

Lemma starts_with_split (p s : str) :
  starts_with p s = true -> exists b, s = p ++ b.
Proof.
  revert s. induction p as [|a p IH]; intros s H.
  - now exists s.
  - destruct s as [|y s']; [discriminate|]. simpl in H.
    apply andb_prop in H. destruct H as [Ha H].
    apply N.eqb_eq in Ha. subst y.
    destruct (IH _ H) as [b ->]. now exists b.
Qed.

Lemma contains_occurs (p s : str) : contains p s = true -> occurs p s.
Proof.
  induction s as [|c t IH]; simpl; intros H.
  - destruct (starts_with_split _ _ H) as [b E]. now exists [], b.
  - apply orb_prop in H. destruct H as [H|H].
    + destruct (starts_with_split _ _ H) as [b E]. now exists [], b.
    + destruct (IH H) as (a & b & ->). now exists (c :: a), b.
Qed.

Lemma clean_json_no_fence (raw : str) : contains FENCE (clean_json raw) = false.
Proof.
  unfold clean_json. rewrite replace_fence.
  destruct (contains FENCE (strip _)) eqn:E; [|reflexivity].
  apply contains_occurs, occurs_strip, occurs_contains in E.
  now rewrite replace_fence_no_fence in E.
Qed.

Lemma contains_length (p s : str) :
  contains p s = true -> length p <= length s.
Proof.
  intros H. apply contains_occurs in H. destruct H as (a & b & ->).
  rewrite !length_app. lia.
Qed.

Lemma contains_removelast (p : str) :
  p <> [] -> contains p (removelast p) = false.
Proof.
  intros Hne. destruct (contains p (removelast p)) eqn:E; [|reflexivity].
  apply contains_length in E.
  rewrite (app_removelast_last 0%N Hne) in E at 1.
  rewrite length_app in E. simpl in E. lia.
Qed.

Lemma leftmost_cons (p a : str) (rest : list str) :
  leftmost p (a :: rest) = true -> contains p a = false.
Proof.
  destruct rest as [|b rest]; cbn [leftmost]; intros H.
  - now apply negb_true_iff in H.
  - apply andb_prop in H. destruct H as [H _]. apply negb_true_iff in H.
    destruct (contains p a) eqn:E; [|reflexivity].
    apply contains_occurs in E. destruct E as (x & y & ->).
    rewrite <- H. symmetry. apply occurs_contains.
    exists x, (y ++ removelast p). now rewrite <- !app_assoc.
Qed.

(** [s.replace(p, '')] joins, with nothing between them, the pieces
    that the matches of [p] cut [s] into. *)
Lemma replace_from_pieces (p s : str) :
  p <> [] ->
  exists pieces,
    s = join p pieces /\ leftmost p pieces = true /\
    replace_from p [] 0 s = concat pieces.
Proof.
  intros Hne.
  remember (length s) as n eqn:Hn. revert s Hn.
  induction n as [n IH] using lt_wf_ind. intros s Hn.
  destruct s as [|x s'].
  - exists [[]]. repeat split. cbn [leftmost contains].
    destruct p; [congruence | reflexivity].
  - destruct (starts_with p (x :: s')) eqn:Hm.
    + destruct (starts_with_split _ _ Hm) as [b E]. rewrite E.
      destruct (IH (length b)) with (s := b) as (pieces & Hj & Hl & Hr);
        [|reflexivity|].
      { subst n. rewrite E, length_app.
        destruct p; [congruence | simpl; lia]. }
      exists ([] :: pieces).
      destruct pieces as [|a rest]; [discriminate Hl|].
      split; [|split].
      * change (join p ([] :: a :: rest)) with ([] ++ p ++ join p (a :: rest)).
        cbn [app]. now rewrite <- Hj.
      * change (leftmost p ([] :: a :: rest))
          with (negb (contains p ([] ++ removelast p)) && leftmost p (a :: rest)).
        cbn [app]. rewrite contains_removelast by assumption. exact Hl.
      * rewrite replace_from_match by assumption. cbn [concat app]. exact Hr.
    + destruct (IH (length s')) with (s := s') as (pieces & Hj & Hl & Hr);
        [subst n; simpl; lia | reflexivity |].
      destruct pieces as [|a rest]; [discriminate Hl|].
      exists ((x :: a) :: rest). split; [|split].
      * destruct rest as [|b rest]; [cbn [join] in *; now rewrite Hj|].
        change (join p ((x :: a) :: b :: rest))
          with ((x :: a) ++ p ++ join p (b :: rest)).
        change (join p (a :: b :: rest)) with (a ++ p ++ join p (b :: rest)) in Hj.
        now rewrite Hj.
      * destruct rest as [|b rest].
        -- cbn [leftmost join contains] in *. subst a. rewrite Hm. exact Hl.
        -- change (leftmost p (a :: b :: rest))
             with (negb (contains p (a ++ removelast p)) && leftmost p (b :: rest))
             in Hl.
           change (leftmost p ((x :: a) :: b :: rest))
             with (negb (contains p ((x :: a) ++ removelast p))
                   && leftmost p (b :: rest)).
           change (join p (a :: b :: rest)) with (a ++ p ++ join p (b :: rest)) in Hj.
           remember (join p (b :: rest)) as J eqn:HJ. clear HJ.
           apply andb_prop in Hl. destruct Hl as [Ha Hl]. rewrite Hl, andb_true_r.
           rewrite <- app_comm_cons. cbn [contains].
           apply negb_true_iff in Ha. rewrite Ha, orb_false_r.
           apply negb_true_iff.
           destruct (starts_with p (x :: a ++ removelast p)) eqn:E; [|reflexivity].
           apply starts_with_app_r with (t := [last p 0%N] ++ J) in E.
           assert (Ep : p ++ J = removelast p ++ [last p 0%N] ++ J).
           { rewrite app_assoc. now rewrite <- app_removelast_last. }
           rewrite <- Hm, <- E. rewrite Hj, Ep.
           cbn [app]. now rewrite <- app_assoc.
      * rewrite replace_from_miss by assumption. cbn [concat].
        rewrite Hr. reflexivity.
Qed.

Lemma lstrip_white (s : str) :
  exists w, s = w ++ lstrip s /\ forallb isspace w = true.
Proof.
  induction s as [|c s (w & IH & Hw)]; simpl.
  - now exists [].
  - destruct (isspace c) eqn:Hc.
    + exists (c :: w). simpl. rewrite Hc, Hw. split; [now f_equal | reflexivity].
    + now exists [].
Qed.

Lemma rstrip_white (s : str) :
  exists w, s = rstrip s ++ w /\ forallb isspace w = true.
Proof.
  unfold rstrip. destruct (lstrip_white (rev s)) as (w & E & Hw).
  exists (rev w). split.
  - rewrite <- rev_app_distr, <- E. symmetry. apply rev_involutive.
  - now rewrite forallb_rev.
Qed.

(** [s.strip()] is [s] without the white space at its two ends. *)
Lemma strip_white (s : str) :
  exists w1 w2,
    s = w1 ++ strip s ++ w2 /\
    forallb isspace w1 = true /\ forallb isspace w2 = true.
Proof.
  unfold strip.
  destruct (lstrip_white (rstrip s)) as (w1 & E1 & H1).
  destruct (rstrip_white s) as (w2 & E2 & H2).
  exists w1, w2. split; [|now split].
  rewrite app_assoc, <- E1. exact E2.
Qed.

Lemma lstrip_fixed (s : str) :
  match s with c :: _ => isspace c = false | [] => True end -> lstrip s = s.
Proof. destruct s as [|c t]; [reflexivity|]. simpl. now intros ->. Qed.

(** The pieces and the trimmed text are the only ones there are: a
    text is cut by the matches of [p] in one way, and it has one core
    between the white space of its ends. *)
Lemma prefix_of_longer (p q x y : str) :
  p ++ x = q ++ y -> length p <= length q -> starts_with p q = true.
Proof.
  intros E Hl. apply app_eq_app in E. destruct E as [l [[-> _]|[-> _]]].
  - rewrite length_app in Hl. destruct l; [|simpl in Hl; lia].
    rewrite app_nil_r. rewrite <- (app_nil_r q) at 2. apply starts_with_app.
  - apply starts_with_app.
Qed.

Lemma first_match_unique (p a b x y : str) :
  p <> [] ->
  a ++ p ++ x = b ++ p ++ y ->
  contains p (a ++ removelast p) = false ->
  contains p (b ++ removelast p) = false ->
  a = b /\ x = y.
Proof.
  intros Hne E Ha Hb.
  assert (Hp : p = removelast p ++ [last p 0%N]) by now apply app_removelast_last.
  assert (Hlen : length p = S (length (removelast p))).
  { rewrite Hp at 1. rewrite length_app. simpl. lia. }
  assert (Hlate : forall a b x y : str,
             a ++ p ++ x = (a ++ b) ++ p ++ y -> b <> [] ->
             contains p ((a ++ b) ++ removelast p) = true).
  { clear a b x y E Ha Hb. intros a b x y E Hb.
    rewrite <- app_assoc in E. apply app_inv_head in E.
    apply occurs_contains. exists a.
    assert (Hs : starts_with p (b ++ removelast p) = true).
    { apply prefix_of_longer with (x := x) (y := [last p 0%N] ++ y).
      - rewrite E, <- app_assoc. apply (f_equal (fun t => b ++ t)).
        rewrite app_assoc. now rewrite <- Hp.
      - rewrite length_app. destruct b; [congruence | simpl; lia]. }
    destruct (starts_with_split _ _ Hs) as [t Ht].
    exists t. rewrite <- app_assoc. now rewrite Ht. }
  pose proof E as E'. apply app_eq_app in E'. destruct E' as [l [[-> El]|[-> El]]].
  - destruct l as [|c l].
    + rewrite app_nil_r in *. apply app_inv_head in E.
      apply app_inv_head in E. now split.
    + symmetry in E. rewrite (Hlate b (c :: l) y x E) in Ha by discriminate.
      discriminate.
  - destruct l as [|c l].
    + rewrite app_nil_r in *. apply app_inv_head in E.
      apply app_inv_head in E. now split.
    + rewrite (Hlate a (c :: l) x y E) in Hb by discriminate. discriminate.
Qed.

Lemma leftmost_join_contains (p a b : str) (rest : list str) :
  contains p (join p (a :: b :: rest)) = true.
Proof.
  apply occurs_contains.
  change (join p (a :: b :: rest)) with (a ++ p ++ join p (b :: rest)).
  now exists a, (join p (b :: rest)).
Qed.

Lemma pieces_unique (p : str) (l1 l2 : list str) :
  p <> [] ->
  join p l1 = join p l2 -> leftmost p l1 = true -> leftmost p l2 = true ->
  l1 = l2.
Proof.
  intros Hne. revert l2.
  induction l1 as [|a l1 IH]; intros l2 E H1 H2; [discriminate H1|].
  destruct l2 as [|b l2]; [discriminate H2|].
  destruct l1 as [|a2 l1], l2 as [|b2 l2].
  - cbn [join] in E. now subst.
  - cbn [leftmost] in H1. apply negb_true_iff in H1.
    change (join p [a]) with a in E. rewrite E in H1.
    now rewrite leftmost_join_contains in H1.
  - cbn [leftmost] in H2. apply negb_true_iff in H2.
    change (join p [b]) with b in E. rewrite <- E in H2.
    now rewrite leftmost_join_contains in H2.
  - change (join p (a :: a2 :: l1)) with (a ++ p ++ join p (a2 :: l1)) in E.
    change (join p (b :: b2 :: l2)) with (b ++ p ++ join p (b2 :: l2)) in E.
    change (leftmost p (a :: a2 :: l1))
      with (negb (contains p (a ++ removelast p)) && leftmost p (a2 :: l1)) in H1.
    change (leftmost p (b :: b2 :: l2))
      with (negb (contains p (b ++ removelast p)) && leftmost p (b2 :: l2)) in H2.
    apply andb_prop in H1. destruct H1 as [Ha H1]. apply negb_true_iff in Ha.
    apply andb_prop in H2. destruct H2 as [Hb H2]. apply negb_true_iff in Hb.
    destruct (first_match_unique _ _ _ _ Hne E Ha Hb) as [-> EJ].
    f_equal. now apply IH.
Qed.

Lemma strip_fixed (m : str) :
  match m with c :: _ => isspace c = false | [] => True end ->
  match rev m with c :: _ => isspace c = false | [] => True end ->
  strip m = m.
Proof.
  intros Hh Hl. unfold strip, rstrip.
  rewrite (lstrip_fixed (rev m)) by assumption.
  rewrite rev_involutive. now apply lstrip_fixed.
Qed.

Lemma trim_unique (w1 w2 w1' w2' m m' : str) :
  w1 ++ m ++ w2 = w1' ++ m' ++ w2' ->
  forallb isspace w1 = true -> forallb isspace w2 = true ->
  forallb isspace w1' = true -> forallb isspace w2' = true ->
  strip m = m -> strip m' = m' -> m = m'.
Proof.
  intros E H1 H2 H1' H2' Hm Hm'.
  rewrite <- Hm, <- Hm'.
  rewrite <- (strip_spaces w1 w2 m H1 H2), <- (strip_spaces w1' w2' m' H1' H2').
  now rewrite E.
Qed.

(** C7, as the scripts have it. The text given to the decoder is the
    raw text with every ["```json"] and then every ["```"] deleted,
    wherever they stand, and trimmed. The matches of ["```json"], taken
    from the left, cut the raw text into pieces; these pieces put
    together are cut again by the matches of ["```"], and the second
    pieces put together, less the white space at the two ends, are the
    cleaned text. It holds no run of three backticks, neither at its
    ends nor inside. The parse is the decoder's verdict on that text:
    an object, or failure when the decoder fails or yields another kind
    of value; nothing is repaired. *)
Theorem cleaning_deletes_every_marker (json_loads : str -> option json) (raw : str) :
  (exists (pieces1 pieces2 : list str) (w1 w2 : str),
     raw = join FENCE_JSON pieces1 /\ leftmost FENCE_JSON pieces1 = true /\
     concat pieces1 = join FENCE pieces2 /\ leftmost FENCE pieces2 = true /\
     concat pieces2 = w1 ++ clean_json raw ++ w2 /\
     forallb isspace w1 = true /\ forallb isspace w2 = true) /\
  match clean_json raw with c :: _ => isspace c = false | [] => True end /\
  match rev (clean_json raw) with c :: _ => isspace c = false | [] => True end /\
  contains FENCE (clean_json raw) = false /\
  parseJsonObject json_loads raw =
    match json_loads (clean_json raw) with
    | Some (JObject d) => Some d
    | _ => None
    end.
Proof.
  split; [|split; [|split; [|split; [apply clean_json_no_fence | reflexivity]]]].
  - destruct (@replace_from_pieces FENCE_JSON raw) as (pieces1 & J1 & L1 & R1);
      [discriminate|].
    destruct (@replace_from_pieces FENCE (concat pieces1))
      as (pieces2 & J2 & L2 & R2); [discriminate|].
    destruct (strip_white (concat pieces2)) as (w1 & w2 & E & H1 & H2).
    exists pieces1, pieces2, w1, w2.
    assert (Hc : clean_json raw = strip (concat pieces2)).
    { unfold clean_json. rewrite replace_fence_json, replace_fence.
      now rewrite R1, R2. }
    rewrite Hc. repeat split; assumption.
  - destruct (clean_json raw) as [|c r] eqn:E; [exact I|].
    unfold clean_json in E. now apply strip_head in E.
  - destruct (rev (clean_json raw)) as [|c r] eqn:E; [exact I|].
    apply (f_equal (@rev N)) in E. rewrite rev_involutive in E. simpl in E.
    unfold clean_json in E. now apply strip_last in E.
Qed.

(** ** Concrete runs *)

Lemma missing_without_params (required : list str) : missing required [] = required.
Proof.
  unfold missing. cbn [param_keys dict_lookup existsb negb].
  induction required as [|k r IH]; [reflexivity|]. simpl. now rewrite IH.
Qed.





(** The Constructor's failures at work: a reply that is not an object,
    and a reply whose [params] is a text that cannot be printed, are
    both reported with the raw reply; no field is named. *)
Example construct_fails_without_naming_a_field :
  construct (scripted TOOL_WELCOME SORRY LISTO) loads WELCOME_HEADER SHARK (init tt)
    = (Returned None,
       {| world := tt;
          trace := [Print (Banner CONSTRUCTOR);
                    Post (constructor_request WELCOME_HEADER SHARK);
                    Print (ConstructorFailed SORRY)] |}) /\
  construct (scripted TOOL_WELCOME (dq "{'params': '\udc00'}") LISTO) loads
    WELCOME_HEADER SHARK (init tt)
    = (Returned None,
       {| world := tt;
          trace := [Print (Banner CONSTRUCTOR);
                    Post (constructor_request WELCOME_HEADER SHARK);
                    Print (ConstructorFailed (dq "{'params': '\udc00'}"))] |}).
Proof. split; vm_compute; reflexivity. Qed.



Lemma chat_decision_ends_the_turn_witness :
  verify_flow (scripted TOOL_CHAT PARAMS_FULL LISTO) loads HOLA (init tt) =
    (Returned Chat,
     {| world := tt;
        trace := [Print (Header HOLA); Print Rule] ++
                 [Print (Banner ROUTER); Post (router_request HOLA);
                  Print (Intent (JString (lit "chat")))] ++ [Print ChatEnd] |}) /\
  posts (trace (snd (verify_flow (scripted TOOL_CHAT PARAMS_FULL LISTO) loads HOLA (init tt))))
    = [router_request HOLA] /\
  invoked CONSTRUCTOR
    (trace (snd (verify_flow (scripted TOOL_CHAT PARAMS_FULL LISTO) loads HOLA (init tt))))
    = false /\
  invoked EXECUTION
    (trace (snd (verify_flow (scripted TOOL_CHAT PARAMS_FULL LISTO) loads HOLA (init tt))))
    = false /\
  invoked RESPONDER
    (trace (snd (verify_flow (scripted TOOL_CHAT PARAMS_FULL LISTO) loads HOLA (init tt))))
    = false /\
  execution_results
    (trace (snd (verify_flow (scripted TOOL_CHAT PARAMS_FULL LISTO) loads HOLA (init tt))))
    = [].
Proof.
  apply (@chat_decision_ends_the_turn unit (scripted TOOL_CHAT PARAMS_FULL LISTO)
           loads HOLA tt (JString (lit "chat"))
           {| world := tt;
              trace := [Print (Banner ROUTER); Post (router_request HOLA);
                        Print (Intent (JString (lit "chat")))] |}).
  - vm_compute. reflexivity.
  - vm_compute. reflexivity.
Defined.



(** C7, counterexample. Three backticks inside a JSON string are not
    left alone: they are deleted before the decoder sees the text, so
    the value decoded is not the one of the reply. Removing markers at
    the two ends only would keep them. *)
Lemma inner_backticks_are_deleted :
  clean_json (dq "{'a': 'x```y'}") = dq "{'a': 'xy'}" /\
  spec_clean_json (dq "{'a': 'x```y'}") = dq "{'a': 'x```y'}" /\
  parseJsonObject loads (dq "{'a': 'x```y'}") = Some [(lit "a", JString (lit "xy"))] /\
  spec_parseJsonObject loads (dq "{'a': 'x```y'}")
    = Some [(lit "a", JString (lit "x```y"))] /\
  parseJsonObject loads (dq "{'a': 'x```y'}")
    <> spec_parseJsonObject loads (dq "{'a': 'x```y'}").
Proof.
  repeat split; try (vm_compute; reflexivity).
  vm_compute. discriminate.
Qed.

(** The pieces of a fenced reply with three backticks inside its text:
    the first marker is the one match of ["```json"]; the three runs of
    backticks left are the matches of ["```"]; what is decoded is the
    text between the markers with the inner run gone. *)
Example pieces_of_a_fenced_reply :
  let raw := fence (dq "{'a': 'x```y'}") in
  let pieces1 := [[]; [10%N] ++ dq "{'a': 'x```y'}" ++ [10%N] ++ FENCE] in
  let pieces2 := [[10%N] ++ dq "{'a': 'x"; dq "y'}" ++ [10%N]; []] in
  raw = join FENCE_JSON pieces1 /\ leftmost FENCE_JSON pieces1 = true /\
  concat pieces1 = join FENCE pieces2 /\ leftmost FENCE pieces2 = true /\
  concat pieces2 = [10%N] ++ clean_json raw ++ [10%N] /\
  clean_json raw = dq "{'a': 'xy'}".
Proof. repeat split; vm_compute; reflexivity. Qed.

(** Nothing is repaired: an object that is not closed, an array, and
    an object followed by more text are all failures. *)
Example no_partial_recovery :
  parseJsonObject loads (dq "{'tool': 'chat'") = None /\
  parseJsonObject loads (dq "['chat']") = None /\
  parseJsonObject loads (dq "{'tool': 'chat'} ok") = None.
Proof. repeat split; vm_compute; reflexivity. Qed.

Lemma counting_deterministic (reply : str) : deterministic (counting reply).
Proof. exists (fun _ => Some reply). intros r w. reflexivity. Qed.

Lemma route_is_deterministic_witness :
  map temperature
    (posts (trace (snd (route (counting TOOL_WELCOME) loads SHARK (init 0)))))
    = [0%Q] /\
  fst (route (counting TOOL_WELCOME) loads SHARK (init 0))
    = fst (route (counting TOOL_WELCOME) loads SHARK
             {| world := 7; trace := [Print Rule] |}).
Proof.
  destruct (@route_is_deterministic nat (counting TOOL_WELCOME) loads SHARK
              (init 0) {| world := 7; trace := [Print Rule] |}) as [Htemp Hdet].
  split; [exact Htemp|].
  apply Hdet. exists (fun _ => Some TOOL_WELCOME). intros r w. reflexivity.
Defined.

(** Against a backend whose reply depends on its state the decision
    can change from one run to the next. *)
Remark route_follows_the_backend_state :
  fst (route (alternating TOOL_WELCOME TOOL_CHAT) loads SHARK (init 0))
    = Returned (Some WELCOME_HEADER) /\
  fst (route (alternating TOOL_WELCOME TOOL_CHAT) loads SHARK (init 1))
    = Returned (Some (JString (lit "chat"))).
Proof. split; vm_compute; reflexivity. Qed.



Lemma missing_tool_field_is_chat_witness :
  fst (route (scripted NO_TOOL PARAMS_FULL LISTO) loads HOLA (init tt))
    = Returned (Some (JString (lit "chat"))) /\
  verify_flow (scripted NO_TOOL PARAMS_FULL LISTO) loads HOLA (init tt) =
    (Returned Chat,
     {| world := tt;
        trace := [Print (Header HOLA); Print Rule; Print (Banner ROUTER);
                  Post (router_request HOLA);
                  Print (Intent (JString (lit "chat"))); Print ChatEnd] |}) /\
  invoked CONSTRUCTOR
    (trace (snd (verify_flow (scripted NO_TOOL PARAMS_FULL LISTO) loads HOLA (init tt))))
    = false /\
  invoked EXECUTION
    (trace (snd (verify_flow (scripted NO_TOOL PARAMS_FULL LISTO) loads HOLA (init tt))))
    = false.
Proof.
  apply (@missing_tool_field_is_chat unit (scripted NO_TOOL PARAMS_FULL LISTO)
           loads HOLA tt tt NO_TOOL [(lit "intent", JString (lit "greeting"))]).
  - reflexivity.
  - vm_compute. reflexivity.
  - vm_compute. reflexivity.
Defined.

(** A value of [params] that is not an object passes the Constructor
    and stops the script in the simulated execution, on the [.get] of
    line 126. *)
Example params_null_raises :
  fst (verify_flow (scripted TOOL_WELCOME (dq "{'params': null}") LISTO) loads SHARK (init tt))
    = Raised AttributeError.
Proof. vm_compute. reflexivity. Qed.

(** What [print] refuses. A routed id that is a lone surrogate cannot
    be shown (line 97, inside the [try]): the turn ends as a Router
    failure. A colour that is one passes the Constructor, whose [print]
    shows the [dict] of [params] with the surrogate escaped, and stops
    the script at the [print] of the result (line 127). A raw reply that
    holds one stops the script in the [except] branch itself. *)
Example lines_that_cannot_be_printed :
  router_try loads (dq "{'tool': '\ud800'}") = Some (JString [55296%N]) /\
  verify_flow (scripted (dq "{'tool': '\ud800'}") PARAMS_FULL LISTO) loads SHARK (init tt)
    = (Returned RouterFailure,
       {| world := tt;
          trace := [Print (Header SHARK); Print Rule; Print (Banner ROUTER);
                    Post (router_request SHARK);
                    Print (RouterFailed (dq "{'tool': '\ud800'}"))] |}) /\
  verify_flow (scripted TOOL_WELCOME (dq "{'params': {'color': '\udc00'}}") LISTO)
    loads SHARK (init tt)
    = (Raised UnicodeEncodeError,
       {| world := tt;
          trace := [Print (Header SHARK); Print Rule; Print (Banner ROUTER);
                    Post (router_request SHARK); Print (Intent WELCOME_HEADER);
                    Print (Banner CONSTRUCTOR);
                    Post (constructor_request WELCOME_HEADER SHARK);
                    Print (Params (JObject [(lit "color", JString [56320%N])]));
                    Print (Banner EXECUTION)] |}) /\
  verify_flow (scripted [55296%N] PARAMS_FULL LISTO) loads SHARK (init tt)
    = (Raised UnicodeEncodeError,
       {| world := tt;
          trace := [Print (Header SHARK); Print Rule; Print (Banner ROUTER);
                    Post (router_request SHARK)] |}).
Proof. repeat split; vm_compute; reflexivity. Qed.
(** * Further properties of the scripts *)

(** ** [verify_flow]: stages, requests and failures *)

Section TurnMore.

Variable World : Type.
Variable backend : request -> World -> option str * World.
Variable json_loads : str -> option json.

Local Abbreviation verify_flow := (verify_flow backend json_loads).
Local Abbreviation router_try := (router_try json_loads).
Local Abbreviation parseJsonObject := (parseJsonObject json_loads).

Ltac cases_of_the_turn u w :=
  rewrite ?verify_flow_run; cbv zeta;
  destruct (backend (router_request u) w) as [[?r1|] ?w1];
  [destruct (unprintable (RouterFailed r1));
   (destruct (router_try r1) as [?tool_id|];
    [destruct (unprintable (Intent tool_id));
     [|destruct (py_eq_str tool_id (lit "chat"));
       [|destruct (backend (constructor_request tool_id u) w1) as [[?r2|] ?w2];
         [destruct (unprintable (ConstructorFailed r2));
          (destruct (parseJsonObject r2) as [?const_json|];
           [destruct (unprintable (Params (dict_get const_json (lit "params") JNull)));
            [|destruct (banner_color const_json) as [?color|];
              [destruct (unprintable (Result (BannerInserted tool_id color)));
               [|destruct (backend (responder_request tool_id
                                      (BannerInserted tool_id color) u) w2)
                   as [[?r3|] ?w3];
                 [destruct (unprintable (FinalMessage r3))|]]|]]|])|]]]|])|].

(** X1. Whatever the backend and the decoder do, the stages entered in a
    turn are the first ones of Router, Constructor, execution,
    Responder, in this order and each once; the Router is always
    entered. *)
Theorem stages_run_in_order (u : str) (w : World) :
  exists n, 1 <= n <= 4 /\
    stages (trace (snd (verify_flow u (init w))))
    = firstn n [ROUTER; CONSTRUCTOR; EXECUTION; RESPONDER].
Proof.
  cases_of_the_turn u w; cbn [snd trace app stages flat_map];
    first [ exists 1; split; [lia | reflexivity]
          | exists 2; split; [lia | reflexivity]
          | exists 3; split; [lia | reflexivity]
          | exists 4; split; [lia | reflexivity] ].
Qed.

(** X2. At most three requests are sent in a turn; their temperatures are
    the first ones of 0.0, 0.0, 0.7, and each of them carries the model
    name and the user's utterance unchanged, after one system prompt. *)
Theorem requests_of_a_turn (u : str) (w : World) :
  (exists n, 1 <= n <= 3 /\
     map temperature (posts (trace (snd (verify_flow u (init w)))))
     = firstn n [0%Q; 0%Q; (7 # 10)%Q]) /\
  Forall (fun r => model r = MODEL /\ exists p, messages r = [system p; user u])
    (posts (trace (snd (verify_flow u (init w))))).
Proof.
  cases_of_the_turn u w; cbn [snd trace app posts flat_map map];
    (split;
     [ first [ exists 1; split; [lia | reflexivity]
             | exists 2; split; [lia | reflexivity]
             | exists 3; split; [lia | reflexivity] ]
     | repeat constructor; eexists; reflexivity ]).
Qed.

(** X3. No request is guarded: whichever of the three requests gets no
    reply, the turn raises the request error there and then, with the
    request as the last thing done. And whenever a turn raises that
    error, a request is the last thing in its trace and no final
    message was shown. *)
Theorem request_error_ends_the_turn (u : str) (w : World) :
  (forall w1,
     backend (router_request u) w = (None, w1) ->
     verify_flow u (init w) =
       (Raised RequestError,
        {| world := w1;
           trace := [Print (Header u); Print Rule; Print (Banner ROUTER);
                     Post (router_request u)] |})) /\
  (forall r1 w1 tool_id w2,
     backend (router_request u) w = (Some r1, w1) ->
     router_try r1 = Some tool_id ->
     unprintable (Intent tool_id) = false ->
     py_eq_str tool_id (lit "chat") = false ->
     backend (constructor_request tool_id u) w1 = (None, w2) ->
     verify_flow u (init w) =
       (Raised RequestError,
        {| world := w2;
           trace := [Print (Header u); Print Rule; Print (Banner ROUTER);
                     Post (router_request u); Print (Intent tool_id);
                     Print (Banner CONSTRUCTOR);
                     Post (constructor_request tool_id u)] |})) /\
  (forall r1 w1 tool_id r2 w2 const_json color w3,
     backend (router_request u) w = (Some r1, w1) ->
     router_try r1 = Some tool_id ->
     unprintable (Intent tool_id) = false ->
     py_eq_str tool_id (lit "chat") = false ->
     backend (constructor_request tool_id u) w1 = (Some r2, w2) ->
     parseJsonObject r2 = Some const_json ->
     unprintable (Params (dict_get const_json (lit "params") JNull)) = false ->
     banner_color const_json = Some color ->
     unprintable (Result (BannerInserted tool_id color)) = false ->
     backend (responder_request tool_id (BannerInserted tool_id color) u) w2
       = (None, w3) ->
     verify_flow u (init w) =
       (Raised RequestError,
        {| world := w3;
           trace := [Print (Header u); Print Rule; Print (Banner ROUTER);
                     Post (router_request u); Print (Intent tool_id);
                     Print (Banner CONSTRUCTOR);
                     Post (constructor_request tool_id u);
                     Print (Params (dict_get const_json (lit "params") JNull));
                     Print (Banner EXECUTION);
                     Print (Result (BannerInserted tool_id color));
                     Print (Banner RESPONDER);
                     Post (responder_request tool_id
                             (BannerInserted tool_id color) u)] |})) /\
  (fst (verify_flow u (init w)) = Raised RequestError ->
   exists tr r,
     trace (snd (verify_flow u (init w))) = tr ++ [Post r] /\
     final_messages (trace (snd (verify_flow u (init w)))) = []).
Proof.
  split; [|split; [|split]].
  - intros w1 H. now rewrite verify_flow_run, H.
  - intros r1 w1 tool_id w2 H1 Hrt Hi Hchat H2.
    rewrite verify_flow_run, H1, Hrt. cbv zeta. now rewrite Hi, Hchat, H2.
  - intros r1 w1 tool_id r2 w2 const_json color w3 H1 Hrt Hi Hchat H2 Hp Hpp Hc Hres H3.
    rewrite verify_flow_run, H1, Hrt. cbv zeta.
    now rewrite Hi, Hchat, H2, Hp, Hpp, Hc, Hres, H3.
  - cases_of_the_turn u w; cbn [fst snd trace app]; intros H;
      try discriminate H.
    all: first
      [ eexists [_; _; _; _; _; _; _; _; _; _; _], _; split; reflexivity
      | eexists [_; _; _; _; _; _], _; split; reflexivity
      | eexists [_; _; _], _; split; reflexivity ].
Qed.

(** When the Router's request gets no reply the turn raises at once:
    one request was sent, no decision was shown and no other stage was
    entered. *)
Lemma router_request_failure (u : str) (w w' : World) :
  backend (router_request u) w = (None, w') ->
  verify_flow u (init w) =
    (Raised RequestError,
     {| world := w';
        trace := [Print (Header u); Print Rule; Print (Banner ROUTER);
                  Post (router_request u)] |}).
Proof. intros H. rewrite verify_flow_run, H. reflexivity. Qed.

(** X4. A [params] that is there, is not an object and can be printed
    passes the Constructor and stops the script in the simulated
    execution: the [.get] of line 126 raises, after the banner of the
    execution; no result is built and the Responder is not asked. *)
Theorem params_not_an_object_raises (u : str) (w w1 w2 : World) (r1 r2 : str)
    (tool_id v : json) (const_json : dict) :
  backend (router_request u) w = (Some r1, w1) ->
  router_try r1 = Some tool_id ->
  unprintable (Intent tool_id) = false ->
  py_eq_str tool_id (lit "chat") = false ->
  backend (constructor_request tool_id u) w1 = (Some r2, w2) ->
  parseJsonObject r2 = Some const_json ->
  dict_lookup const_json (lit "params") = Some v ->
  (forall p, v <> JObject p) ->
  unprintable (Params v) = false ->
  verify_flow u (init w) =
    (Raised AttributeError,
     {| world := w2;
        trace := [Print (Header u); Print Rule; Print (Banner ROUTER);
                  Post (router_request u); Print (Intent tool_id);
                  Print (Banner CONSTRUCTOR); Post (constructor_request tool_id u);
                  Print (Params v); Print (Banner EXECUTION)] |}).
Proof.
  intros H1 Hrt Hi Hchat H2 Hp Hv Hno Hpv. rewrite verify_flow_run.
  rewrite H1, Hrt. cbv zeta. rewrite Hi, Hchat, H2, Hp.
  unfold banner_color, dict_get. rewrite Hv, Hpv.
  destruct v; try reflexivity. now destruct (Hno members).
Qed.


(** X6. The routed tool id is the one used to the end. In a turn that
    passes the Constructor with a [params] that is missing or an
    object, so that a colour is found, and whose lines up to the result
    can be printed, the three requests are the Router's, the
    Constructor's for the routed id and the Responder's for the same id
    and the simulated result: the [toolId] and [action] of the
    Constructor's reply are not looked at. *)
Theorem routed_id_is_used_throughout (u : str) (w w1 w2 : World) (r1 r2 : str)
    (tool_id color : json) (const_json : dict) :
  backend (router_request u) w = (Some r1, w1) ->
  router_try r1 = Some tool_id ->
  unprintable (Intent tool_id) = false ->
  py_eq_str tool_id (lit "chat") = false ->
  backend (constructor_request tool_id u) w1 = (Some r2, w2) ->
  parseJsonObject r2 = Some const_json ->
  unprintable (Params (dict_get const_json (lit "params") JNull)) = false ->
  banner_color const_json = Some color ->
  unprintable (Result (BannerInserted tool_id color)) = false ->
  posts (trace (snd (verify_flow u (init w)))) =
    [router_request u; constructor_request tool_id u;
     responder_request tool_id (BannerInserted tool_id color) u] /\
  constructor_ids (trace (snd (verify_flow u (init w)))) = [tool_id] /\
  execution_results (trace (snd (verify_flow u (init w))))
    = [BannerInserted tool_id color].
Proof.
  intros H1 Hrt Hi Hchat H2 Hp Hpp Hc Hres. rewrite verify_flow_run.
  rewrite H1, Hrt. cbv zeta. rewrite Hi, Hchat, H2, Hp, Hpp, Hc, Hres.
  destruct (backend _ w2) as [[r3|] w3]; [|repeat split].
  destruct (unprintable (FinalMessage r3)); repeat split.
Qed.


End TurnMore.

(** ** [clean_json]: what the cleaning keeps *)

Lemma subseq_refl (s : str) : subseq s s.
Proof. induction s; constructor; assumption. Qed.

Lemma subseq_app_l (w a b : str) : subseq a b -> subseq a (w ++ b).
Proof. intros H. induction w; simpl; [assumption | now constructor]. Qed.

Lemma subseq_app_r (w a b : str) : subseq a b -> subseq a (b ++ w).
Proof.
  intros H. induction H; simpl; try (constructor; assumption).
  induction w; constructor; assumption.
Qed.

Lemma subseq_trans (a b c : str) : subseq a b -> subseq b c -> subseq a c.
Proof.
  intros Hab Hbc. revert a Hab.
  induction Hbc as [|x b c Hbc IH|x b c Hbc IH]; intros a Hab.
  - assumption.
  - inversion Hab; subst; constructor; auto.
  - constructor. auto.
Qed.

Lemma subseq_length (a b : str) : subseq a b -> length a <= length b.
Proof. induction 1; simpl; lia. Qed.

Lemma subseq_skipn (k : nat) (s : str) : subseq (skipn k s) s.
Proof.
  rewrite <- (firstn_skipn k s) at 2. apply subseq_app_l, subseq_refl.
Qed.

(** Deleting the matches of a text only deletes characters. *)
Lemma replace_from_subseq (old s : str) :
  old <> [] -> subseq (replace_from old [] 0 s) s.
Proof.
  intros Hne.
  assert (Hl : 1 <= length old) by (destruct old; [congruence | simpl; lia]).
  remember (length s) as n eqn:Hn. revert s Hn.
  induction n as [n IH] using lt_wf_ind. intros s Hn.
  destruct s as [|x s']; [constructor|].
  destruct (starts_with old (x :: s')) eqn:Hm.
  - rewrite replace_from_hit by assumption. cbn [app].
    apply subseq_trans with (b := skipn (length old) (x :: s')).
    + apply (IH (length (skipn (length old) (x :: s')))); [|reflexivity].
      rewrite length_skipn. subst n. cbn [length]. lia.
    + apply subseq_skipn.
  - rewrite replace_from_miss by assumption. constructor.
    apply (IH (length s')); [subst n; simpl; lia | reflexivity].
Qed.

Lemma strip_subseq (s : str) : subseq (strip s) s.
Proof.
  unfold strip.
  destruct (lstrip_suffix (rstrip s)) as [w1 H1].
  destruct (rstrip_prefix s) as [w2 H2].
  apply subseq_trans with (b := rstrip s).
  - rewrite H1 at 2. apply subseq_app_l, subseq_refl.
  - rewrite H2 at 2. apply subseq_app_r, subseq_refl.
Qed.

(** X8. The cleaned text is the raw text with some characters deleted:
    nothing is inserted, changed or moved, and the text does not grow. *)
Theorem cleaning_only_deletes (raw : str) :
  subseq (clean_json raw) raw /\ length (clean_json raw) <= length raw.
Proof.
  assert (H : subseq (clean_json raw) raw).
  { unfold clean_json. rewrite replace_fence_json, replace_fence.
    eapply subseq_trans; [apply strip_subseq|].
    eapply subseq_trans; apply replace_from_subseq; discriminate. }
  split; [exact H | now apply subseq_length].
Qed.

Lemma replace_from_no_match (old new s : str) :
  contains old s = false -> replace_from old new 0 s = s.
Proof.
  induction s as [|c t IH]; intros H; [reflexivity|].
  cbn [contains] in H. apply orb_false_elim in H. destruct H as [Hm Ht].
  rewrite replace_from_miss by assumption. now rewrite IH.
Qed.

Lemma starts_with_app_l (p q s : str) :
  starts_with (p ++ q) s = true -> starts_with p s = true.
Proof.
  revert s. induction p as [|a p IH]; intros s H; [reflexivity|].
  destruct s as [|y s']; [discriminate|]. simpl in *.
  apply andb_prop in H. destruct H as [-> H]. now rewrite IH.
Qed.

Lemma contains_app_l (p q s : str) :
  contains p s = false -> contains (p ++ q) s = false.
Proof.
  induction s as [|c t IH]; cbn [contains]; intros H.
  - destruct (starts_with (p ++ q) []) eqn:E; [|reflexivity].
    apply starts_with_app_l in E. congruence.
  - apply orb_false_elim in H. destruct H as [Hm Ht].
    rewrite IH by assumption. rewrite orb_false_r.
    destruct (starts_with (p ++ q) (c :: t)) eqn:E; [|reflexivity].
    apply starts_with_app_l in E. congruence.
Qed.

Lemma strip_idempotent (s : str) : strip (strip s) = strip s.
Proof.
  assert (Hr : rstrip (strip s) = strip s).
  { unfold rstrip at 1. rewrite lstrip_fixed; [apply rev_involutive|].
    destruct (rev (strip s)) as [|c r] eqn:E; [exact I|].
    apply (f_equal (@rev N)) in E. rewrite rev_involutive in E. simpl in E.
    now apply strip_last in E. }
  unfold strip at 1. rewrite Hr. apply lstrip_fixed.
  destruct (strip s) as [|c r] eqn:E; [exact I|]. now apply strip_head in E.
Qed.

(** X9. A reply that holds no run of three backticks is only trimmed. *)
Theorem reply_without_marker_is_trimmed (raw : str) :
  contains FENCE raw = false -> clean_json raw = strip raw.
Proof.
  intros H. unfold clean_json. rewrite replace_fence_json, replace_fence.
  rewrite (@replace_from_no_match FENCE_JSON [] raw)
    by (exact (@contains_app_l FENCE (lit "json") raw H)).
  now rewrite replace_from_no_match.
Qed.

Lemma reply_without_marker_is_trimmed_witness :
  clean_json (dq "  {'tool': 'chat'} ") = strip (dq "  {'tool': 'chat'} ").
Proof.
  apply reply_without_marker_is_trimmed. vm_compute. reflexivity.
Defined.

(** X10. Cleaning a cleaned text changes nothing. *)
Theorem cleaning_is_idempotent (raw : str) :
  clean_json (clean_json raw) = clean_json raw.
Proof.
  unfold clean_json at 1. rewrite replace_fence_json, replace_fence.
  pose proof (clean_json_no_fence raw) as H.
  rewrite (@replace_from_no_match FENCE_JSON [] (clean_json raw))
    by (exact (@contains_app_l FENCE (lit "json") _ H)).
  rewrite replace_from_no_match by assumption.
  unfold clean_json. apply strip_idempotent.
Qed.

(** X11. The fenced reply parses as the bare one also when the markers are
    set off from the text by any white space, or by none. *)
Theorem fence_with_white_space_parses_alike (json_loads : str -> option json)
    (w1 w2 s : str) :
  forallb isspace w1 = true -> forallb isspace w2 = true ->
  parseJsonObject json_loads (fence_with w1 w2 s) = parseJsonObject json_loads s.
Proof.
  intros H1 H2. unfold parseJsonObject.
  now rewrite clean_json_fence_with.
Qed.

Lemma fence_with_white_space_parses_alike_witness :
  parseJsonObject loads (fence_with [32%N] [13%N; 10%N] TOOL_CHAT)
  = parseJsonObject loads TOOL_CHAT.
Proof.
  apply fence_with_white_space_parses_alike; reflexivity.
Defined.

(** ** [verify_analysis_flow] *)

Section AnalysisMore.

Variable World : Type.
Variable backend : request -> World -> option str * World.
Variable json_loads : str -> option json.

Local Abbreviation verify_analysis_flow :=
  (RepoAnalysis.verify_analysis_flow backend json_loads).
Local Abbreviation router_tool := (RepoAnalysis.router_tool json_loads).


(** X13. Any routed id other than the string ["read_repo"], ["chat"]
    included, sends the Constructor the prompt that asks for an empty
    JSON, once the Router's reply has been shown: the analysis has no
    chat path. *)
Theorem analysis_has_no_chat_exit (w w1 : World) (r1 : str) :
  backend analysis_router_request w = (Some r1, w1) ->
  unprintable (Output ROUTER r1) = false ->
  py_eq_str (router_tool r1) (lit "read_repo") = false ->
  nth_error (posts (trace (snd (verify_analysis_flow (init w))))) 1
    = Some {| model := MODEL;
              messages := [system EmptyJsonTurn; user RepoAnalysis.USER_INPUT];
              temperature := 0 |} /\
  invoked CONSTRUCTOR (trace (snd (verify_analysis_flow (init w)))) = true.
Proof.
  intros H1 Hp1 Hid.
  assert (E : analysis_constructor_request (router_tool r1) =
              {| model := MODEL;
                 messages := [system EmptyJsonTurn; user RepoAnalysis.USER_INPUT];
                 temperature := 0 |}).
  { unfold analysis_constructor_request, RepoAnalysis.get_constructor_prompt.
    now rewrite Hid. }
  rewrite verify_analysis_flow_run, H1. cbv zeta. rewrite Hp1, E.
  destruct (backend _ w1) as [[r2|] w2]; [|split; reflexivity].
  destruct (unprintable (Output CONSTRUCTOR r2)); [split; reflexivity|].
  destruct (backend _ w2) as [[r3|] w3]; [|split; reflexivity].
  destruct (unprintable (Analysis r3)); split; reflexivity.
Qed.

(** The two Routers read the same field of the same cleaned reply and
    differ only in the default: ["chat"] in [verify_flow], ["read_repo"]
    in [verify_analysis_flow]. *)
Lemma routers_differ_in_the_default (resp : str) (d : dict) :
  json_loads (clean_json resp) = Some (JObject d) ->
  router_try json_loads resp = Some (dict_get d (lit "tool") (JString (lit "chat"))) /\
  router_tool resp = dict_get d (lit "tool") (JString (lit "read_repo")).
Proof.
  intros H. unfold AgentFlow.router_try, AgentFlow.parseJsonObject,
    RepoAnalysis.router_tool, dict_get.
  rewrite H. split; [reflexivity|].
  destruct (dict_lookup d (lit "tool")); reflexivity.
Qed.

End AnalysisMore.

(** ** [verify_closure_logic] *)

Section Closure.

Import GoalValidator.

Variable lower : str -> str.

Local Abbreviation is_concern := (is_concern lower).
Local Abbreviation reflected := (reflected lower).
Local Abbreviation verify_closure_logic := (verify_closure_logic lower).

(** The loop adds to [missing] the concerns that no task reflects, in
    their order, and sets the status when it adds one. *)
Lemma check_spec (task_list concerns : list str) (st : str) (missing : list str) :
  check lower task_list concerns st missing =
  let added := filter (fun c => negb (reflected task_list c)) concerns in
  (match added with [] => st | _ :: _ => lit "INCOMPLETE" end, missing ++ added).
Proof.
  revert st missing. induction concerns as [|c rest IH]; intros st missing.
  - cbn. now rewrite app_nil_r.
  - cbn [check filter]. destruct (negb (reflected task_list c)).
    + rewrite IH. cbv zeta. rewrite <- app_assoc. cbn [app].
      destruct (filter _ rest); reflexivity.
    + apply IH.
Qed.

Lemma filter_filter {A} (f g : A -> bool) (l : list A) :
  filter f (filter g l) = filter (fun x => g x && f x) l.
Proof.
  induction l as [|a l IH]; [reflexivity|]. simpl.
  destruct (g a); simpl; [destruct (f a)|]; now rewrite IH.
Qed.

(** The dict returned, in closed form. *)
Lemma verify_closure_logic_spec (task_list messages : list str) :
  verify_closure_logic task_list messages =
  let missing :=
    filter (fun m => is_concern m && negb (reflected task_list m)) messages in
  {| status := match missing with [] => lit "OK" | _ :: _ => lit "INCOMPLETE" end;
     missing_verification := missing |}.
Proof.
  unfold GoalValidator.verify_closure_logic. rewrite check_spec. cbv zeta.
  cbn [app]. unfold recent_concerns. now rewrite filter_filter.
Qed.

(** X14. The messages reported are exactly the messages that hold a bug
    keyword and that no task reflects, in the order of the messages. *)
Theorem missing_are_the_unreflected_concerns (task_list messages : list str) :
  missing_verification (verify_closure_logic task_list messages) =
  filter (fun m => is_concern m && negb (reflected task_list m)) messages.
Proof.
  unfold GoalValidator.verify_closure_logic. rewrite check_spec. cbv zeta.
  cbn [missing_verification app]. unfold recent_concerns.
  induction messages as [|m l IH]; [reflexivity|].
  cbn [filter]. destruct (is_concern m); cbn [filter andb]; [|exact IH].
  destruct (negb (reflected task_list m)); now rewrite IH.
Qed.

(** X15. The two fields agree: the status is ["OK"] with nothing reported,
    and ["INCOMPLETE"] with at least one message reported. *)
Theorem status_agrees_with_missing (task_list messages : list str) :
  (status (verify_closure_logic task_list messages) = lit "OK" /\
   missing_verification (verify_closure_logic task_list messages) = []) \/
  (status (verify_closure_logic task_list messages) = lit "INCOMPLETE" /\
   missing_verification (verify_closure_logic task_list messages) <> []).
Proof.
  rewrite verify_closure_logic_spec. cbv zeta. cbn [status missing_verification].
  destruct (filter _ messages); [left | right];
    split; [reflexivity | reflexivity | reflexivity | discriminate].
Qed.

Lemma contains_nil (s : str) : contains [] s = true.
Proof. destruct s; reflexivity. Qed.

(** X16. A task that is the empty text is in every message: with it in the
    list nothing is ever reported. *)
Theorem empty_task_hides_every_concern (task_list messages : list str) :
  In [] task_list -> lower [] = [] ->
  verify_closure_logic task_list messages =
    {| status := lit "OK"; missing_verification := [] |}.
Proof.
  intros Hin Hlow.
  assert (Hr : forall c, reflected task_list c = true).
  { intros c. unfold GoalValidator.reflected. apply existsb_exists.
    exists []. split; [assumption|]. rewrite Hlow. apply contains_nil. }
  rewrite verify_closure_logic_spec. cbv zeta.
  replace (filter _ messages) with (@nil str); [reflexivity|].
  induction messages as [|c l IH]; [reflexivity|].
  cbn [filter]. rewrite Hr, andb_false_r. exact IH.
Qed.

(** X17. More tasks never report more: what is reported with the tasks
    [task_list ++ more] is what is reported with [task_list], less the
    messages that a task of [more] reflects. *)
Theorem more_tasks_report_less (task_list more messages : list str) :
  missing_verification (verify_closure_logic (task_list ++ more) messages) =
  filter (fun m => negb (reflected more m))
    (missing_verification (verify_closure_logic task_list messages)).
Proof.
  rewrite !verify_closure_logic_spec. cbv zeta. cbn [missing_verification].
  rewrite filter_filter. apply filter_ext. intros m.
  unfold GoalValidator.reflected. rewrite existsb_app, negb_orb.
  now rewrite andb_assoc.
Qed.

(** X18. With no task every message that holds a bug keyword is reported,
    and a message that holds none is never reported, whatever the
    tasks. *)
Theorem concerns_are_the_keyword_messages (task_list messages : list str) :
  missing_verification (verify_closure_logic [] messages)
    = filter is_concern messages /\
  Forall (fun m => is_concern m = true)
    (missing_verification (verify_closure_logic task_list messages)).
Proof.
  rewrite !verify_closure_logic_spec. cbv zeta. cbn [missing_verification].
  split.
  - apply filter_ext. intros m. cbn. apply andb_true_r.
  - apply Forall_forall. intros m Hm. apply filter_In in Hm.
    destruct Hm as [_ Hm]. now apply andb_prop in Hm.
Qed.

End Closure.

Lemma empty_task_hides_every_concern_witness :
  GoalValidator.verify_closure_logic GoalValidator.ascii_lower
    ([] :: GoalValidator.sample_tasks) GoalValidator.sample_messages =
  {| GoalValidator.status := lit "OK"; GoalValidator.missing_verification := [] |}.
Proof.
  apply empty_task_hides_every_concern; [now left | reflexivity].
Defined.

(** The run of the demonstration: the message about the sidebar bug is
    reported, as no task names it. *)
Example demo_reports_the_sidebar_bug :
  GoalValidator.verify_closure_logic GoalValidator.ascii_lower
    GoalValidator.sample_tasks GoalValidator.sample_messages =
  {| GoalValidator.status := lit "INCOMPLETE";
     GoalValidator.missing_verification := GoalValidator.sample_messages |}.
Proof. vm_compute. reflexivity. Qed.

(** ** [run_stress_test] *)

Section Stress.

Import StressTest.

Variable World : Type.
Variable backend : payload -> Z -> World -> response * World.
Variable json_loads : str -> option json.

Local Abbreviation audit_reply := (audit_reply json_loads).
Local Abbreviation audit_scenario := (audit_scenario backend json_loads).
Local Abbreviation audit_all := (audit_all backend json_loads).
Local Abbreviation run_stress_test := (run_stress_test backend json_loads).

Lemma posted_app (a b : list event) : posted (a ++ b) = posted a ++ posted b.
Proof. apply flat_map_app. Qed.

Lemma opened_app (a b : list event) : opened (a ++ b) = opened a ++ opened b.
Proof. apply flat_map_app. Qed.

Lemma dumped_app (a b : list event) : dumped (a ++ b) = dumped a ++ dumped b.
Proof. apply flat_map_app. Qed.

Lemma dumped_in_part_app (a b : list event) :
  dumped_in_part (a ++ b) = dumped_in_part a ++ dumped_in_part b.
Proof. apply flat_map_app. Qed.

(** One scenario: one entry for it, one request, nothing written. *)
Lemma audit_scenario_effects (sp : json) (i n : nat) (u : str) (st : state World) :
  input (fst (audit_scenario sp i n u st)) = u /\
  posted (events (snd (audit_scenario sp i n u st)))
    = posted (events st) ++ [(scenario_payload sp u, 30%Z)] /\
  opened (events (snd (audit_scenario sp i n u st))) = opened (events st) /\
  dumped (events (snd (audit_scenario sp i n u st))) = dumped (events st) /\
  dumped_in_part (events (snd (audit_scenario sp i n u st)))
    = dumped_in_part (events st).
Proof.
  unfold StressTest.audit_scenario, say. cbn [world events].
  change {| model := _; messages := _; temperature := _ |} with (scenario_payload sp u).
  destruct (backend (scenario_payload sp u) 30 (world st)) as [resp w].
  destruct resp as [|code [raw|]]; [| destruct (code =? 200)%Z;
    [destruct (audit_reply raw) as [[[ok details] parsed]|];
     [destruct (unprintable details)|]|]
    | destruct (code =? 200)%Z];
    cbn [fst snd input world events];
    rewrite ?posted_app, ?opened_app, ?dumped_app, ?dumped_in_part_app;
    cbn [posted opened dumped dumped_in_part flat_map app];
    rewrite ?app_nil_r; repeat split; reflexivity.
Qed.

(** The loop: an entry for each scenario, in order, after the entries
    it started with; a request for each; nothing written. *)
Lemma audit_all_effects (sp : json) (n : nat) (scenarios : list str) :
  forall (i : nat) (results : list entry) (st : state World),
  map input (fst (audit_all sp n i scenarios results st))
    = map input results ++ scenarios /\
  posted (events (snd (audit_all sp n i scenarios results st)))
    = posted (events st) ++ map (fun u => (scenario_payload sp u, 30%Z)) scenarios /\
  opened (events (snd (audit_all sp n i scenarios results st))) = opened (events st) /\
  dumped (events (snd (audit_all sp n i scenarios results st))) = dumped (events st) /\
  dumped_in_part (events (snd (audit_all sp n i scenarios results st)))
    = dumped_in_part (events st).
Proof.
  induction scenarios as [|u rest IH]; intros i results st.
  - cbn. now rewrite !app_nil_r.
  - cbn [StressTest.audit_all].
    pose proof (audit_scenario_effects sp i n u st) as (Hi & Hp & Ho & Hd & Hq).
    destruct (audit_scenario sp i n u st) as [e st1]. cbn [fst snd] in *.
    destruct (IH (S i) (results ++ [e]) st1) as (Ji & Jp & Jo & Jd & Jq).
    rewrite Ji, Jp, Jo, Jd, Jq, Hp, Ho, Hd, Hq, map_app. cbn [map].
    rewrite Hi, <- !app_assoc. repeat split.
Qed.

(** X19. With a prompt in the file, every scenario is audited, whatever the
    backend does: ten requests are made, one for each scenario in the
    order of the list, each with the prompt of the file as the system
    message, temperature 0.0 and a timeout of 30 seconds; no failure
    stops the loop. *)
Theorem every_scenario_is_requested (txt : str) (data : dict) (w : World) :
  json_loads txt = Some (JObject data) ->
  truthy (dict_get data (lit "systemPrompt") JNull) = true ->
  posted (events (snd (run_stress_test (Holds txt) w)))
    = map (fun u => (scenario_payload (dict_get data (lit "systemPrompt") JNull) u, 30%Z))
        SCENARIOS /\
  length (posted (events (snd (run_stress_test (Holds txt) w)))) = 10.
Proof.
  intros Hj Ht.
  assert (E : posted (events (snd (run_stress_test (Holds txt) w)))
              = map (fun u => (scenario_payload
                                 (dict_get data (lit "systemPrompt") JNull) u, 30%Z))
                  SCENARIOS).
  { unfold StressTest.run_stress_test, get_live_prompt. rewrite Hj, Ht. cbn [negb].
    match goal with
    | |- context [audit_all ?sp ?n ?i ?l ?r ?st] =>
        pose proof (audit_all_effects sp n l i r st) as (_ & Hp & _);
        destruct (audit_all sp n i l r st) as [results st1]
    end.
    cbn [snd fst] in *.
    destruct (encodable results); cbn [snd events say open_file world];
      rewrite ?posted_app, Hp; cbn [posted flat_map app events say open_file world];
      now rewrite ?app_nil_r. }
  split; [exact E|]. rewrite E. reflexivity.
Qed.



(** X22. The recorded response does not tell a failure from a reply: a
    reply with status 200 whose text is [FAILED] leaves the same entry
    as a reply with another status. *)
Theorem failure_mark_is_ambiguous (sp : json) (i n : nat) (u : str)
    (st1 st2 : state World) (code : Z) (body : option json) (w1 w2 : World) :
  AgentFlow.parseJsonObject json_loads (lit "FAILED") = None ->
  (code =? 200)%Z = false ->
  backend (scenario_payload sp u) 30%Z (world st1) = (Response code body, w1) ->
  backend (scenario_payload sp u) 30%Z (world st2)
    = (Response 200 (Some (JString (lit "FAILED"))), w2) ->
  fst (audit_scenario sp i n u st1) = fst (audit_scenario sp i n u st2).
Proof.
  intros Hp Hc H1 H2. unfold StressTest.audit_scenario, say. cbn [world events].
  change {| model := _; messages := _; temperature := _ |} with (scenario_payload sp u).
  rewrite H1, H2, Hc. cbn [Z.eqb Pos.eqb]. unfold StressTest.audit_reply.
  rewrite Hp. reflexivity.
Qed.


End Stress.

(** ** [run_live_test] *)

Section Live.

Import LiveTest.

Variable World : Type.
Variable github_repos : World -> response * World.
Variable get_real_readme : json -> World -> option str * World.
Variable ai : payload -> Z -> World -> response * World.

Local Abbreviation run_live_test := (run_live_test github_repos get_real_readme ai).
Local Abbreviation analyze_with_ai := (analyze_with_ai ai).

Lemma name_of_truthy (r name : json) : name_of r = inl name -> truthy r = true.
Proof.
  destruct r as [| | | | | |d]; try discriminate.
  destruct d; [discriminate | reflexivity].
Qed.



(** What the search returns is [None] or an item with a name. *)
Lemma find_intro_electron_found (items : list json) (found : json) :
  find_intro_electron items = inl found ->
  found = JNull \/ exists name, name_of found = inl name.
Proof.
  induction items as [|r rest IH]; cbn [find_intro_electron]; intros H.
  - left. congruence.
  - destruct (name_of r) as [name|e] eqn:Hn; [|discriminate].
    destruct (py_eq_str name (lit "intro-electron")).
    + right. exists name. congruence.
    + now apply IH.
Qed.

Lemma flat_map_snoc {A B} (f : A -> list B) (l : list A) (a : A) :
  flat_map f (l ++ [a]) = flat_map f l ++ f a.
Proof. rewrite flat_map_app. cbn. now rewrite app_nil_r. Qed.

(** The request of the analysis and its effects. *)
Lemma analyze_with_ai_effects (repo_name : json) (content : str) (st : state World) :
  let p := {| model := MODEL;
              system_message := lit "You are a helpful Code Analyst.";
              user_message := {| project := repo_name; readme := firstn 3000 content |};
              temperature := 7 # 10 |} in
  posted (events (snd (analyze_with_ai repo_name content st)))
    = posted (events st) ++ [(p, 60%Z)] /\
  printed (events (snd (analyze_with_ai repo_name content st)))
    = printed (events st) ++ [Sending (length content)].
Proof.
  cbv zeta. unfold LiveTest.analyze_with_ai, say. cbn [world events].
  destruct (ai _ 60%Z (world st)) as [[|code [body|]] w'];
    [| destruct (code =? 200)%Z | destruct (code =? 200)%Z];
    cbn [snd events]; unfold posted, printed;
    rewrite !flat_map_snoc; cbn [app]; rewrite ?app_nil_r; split; reflexivity.
Qed.

(** The report on a target: it never prints that there is no
    repository, and sends one request at most. *)
Lemma report_on_effects (repo_name : json) (st : state World) :
  (In NoRepositories (printed (events (snd (report_on get_real_readme ai repo_name st))))
   -> In NoRepositories (printed (events st))) /\
  exists sent,
    posted (events (snd (report_on get_real_readme ai repo_name st)))
      = posted (events st) ++ sent /\
    length sent <= 1 /\
    Forall (fun pt => length (readme (user_message (fst pt))) <= 3000 /\
                      temperature (fst pt) = (7 # 10)%Q /\ snd pt = 60%Z) sent.
Proof.
  unfold LiveTest.report_on. cbv zeta.
  destruct (unprintable (Target repo_name)).
  { cbn [snd]. split; [tauto|]. exists []. rewrite app_nil_r.
    repeat split; [simpl; lia | constructor]. }
  unfold say. cbn [world events].
  destruct (get_real_readme repo_name (world st)) as [[[|c content]|] w].
  - cbn [fst snd events]. unfold printed, posted.
    rewrite !flat_map_snoc. cbn [app]. rewrite ?app_nil_r.
    repeat split.
    + intros H. apply in_app_or in H. destruct H as [H|[H|[]]]; [|discriminate].
      apply in_app_or in H. destruct H as [H|[H|[]]]; [assumption | discriminate].
    + exists []. rewrite app_nil_r. repeat split; [simpl; lia | constructor].
  - match goal with
    | |- context [analyze_with_ai ?n ?c ?s] =>
        pose proof (analyze_with_ai_effects n c s) as (Hp & Hl);
        destruct (analyze_with_ai n c s) as [a st1]
    end.
    cbn [fst snd events world] in *.
    destruct (unprintable (Report a)); cbn [fst snd events world];
      unfold printed, posted in *;
      rewrite !flat_map_snoc in *; cbn [app] in *; rewrite ?app_nil_r in *;
      rewrite Hp, Hl; (split;
      [ intros H;
        repeat (apply in_app_or in H; destruct H as [H|[H|[]]]; [|discriminate]);
        assumption
      | eexists [_]; split; [reflexivity|]; split; [simpl; lia|];
        constructor; [|constructor]; cbn [fst snd user_message readme temperature];
        rewrite length_firstn; repeat split; lia ]).
  - cbn [fst snd events]. unfold printed, posted.
    rewrite !flat_map_snoc. cbn [app]. rewrite ?app_nil_r.
    repeat split.
    + intros H. apply in_app_or in H. destruct H as [H|[H|[]]]; [|discriminate].
      apply in_app_or in H. destruct H as [H|[H|[]]]; [assumption | discriminate].
    + exists []. rewrite app_nil_r. repeat split; [simpl; lia | constructor].
Qed.







(** The search over the characters of a text, or over the keys of a
    dict, fails at the first one. *)
Lemma find_intro_electron_first_item (repos found : json) (n : nat) :
  truthy repos = true ->
  len repos = inl n ->
  find_intro_electron (iterate repos) = inl found ->
  exists r rest, repos = JArray (r :: rest) /\ exists name, name_of r = inl name.
Proof.
  destruct repos as [| | | |s|items|d]; try discriminate; intros Ht _.
  - destruct s; [discriminate|]. cbn. discriminate.
  - destruct items as [|r rest]; [discriminate|].
    cbn [iterate find_intro_electron].
    destruct (name_of r) as [name|e] eqn:Hn; [|discriminate].
    intros _. exists r, rest. split; [reflexivity | now exists name].
  - destruct d as [|[k v] d]; [discriminate|]. cbn. discriminate.
Qed.

(** A run either stops before a target is chosen, having sent nothing,
    or goes on to the report on a target. *)
Lemma run_live_test_shape (w : World) :
  let quiet (st : state World) :=
    posted (events st) = [] /\ selected (events st) = [] /\
    ~ In NoRepositories (printed (events st)) in
  (exists st, snd (run_live_test w) = st /\ quiet st) \/
  (exists repo_name st,
     run_live_test w = report_on get_real_readme ai repo_name st /\ quiet st).
Proof.
  cbv zeta.
  assert (Hq : forall (evs : list event),
             forallb (fun e => match e with
                               | Posted _ _ | Printed (Target _)
                               | Printed NoRepositories => false
                               | _ => true
                               end) evs = true ->
             posted evs = [] /\ selected evs = [] /\ ~ In NoRepositories (printed evs)).
  { induction evs as [|e evs IH]; [intros _; repeat split; intros []|].
    cbn [forallb]. intros H. apply andb_prop in H. destruct H as [He H].
    destruct (IH H) as (Hp & Hs & Hn).
    destruct e as [| | |[]]; try discriminate; cbn; rewrite ?Hp, ?Hs;
      repeat split; try assumption;
      intros [E|E]; try discriminate; auto. }
  unfold LiveTest.run_live_test, LiveTest.get_real_repos, say. cbn [world events].
  destruct (github_repos w) as [[|code [repos|]] w1];
    [left; eexists; split; [reflexivity | apply Hq; reflexivity]
    | | destruct (code =? 200)%Z; cbn [negb];
        left; eexists; split; try reflexivity; apply Hq; reflexivity].
  destruct (code =? 200)%Z; cbn [negb];
    [|left; eexists; split; [reflexivity | apply Hq; reflexivity]].
  destruct (truthy repos) eqn:Ht; cbn [negb];
    [|left; eexists; split; [reflexivity | apply Hq; reflexivity]].
  destruct (len repos) as [n|e] eqn:Hlen;
    [|left; eexists; split; [reflexivity | apply Hq; reflexivity]].
  destruct (find_intro_electron (iterate repos)) as [found|e] eqn:Hfind;
    [|left; eexists; split; [reflexivity | apply Hq; reflexivity]].
  destruct (@find_intro_electron_first_item repos found n Ht Hlen Hfind)
    as (r & rest & -> & name & Hr).
  destruct (@find_intro_electron_found _ _ Hfind) as [->|[fname Hf]].
  - cbn [truthy negb first_item]. rewrite (@name_of_truthy _ _ Hr). cbn [negb].
    rewrite Hr. right. eexists _, _. split; [reflexivity | apply Hq; reflexivity].
  - rewrite (@name_of_truthy _ _ Hf). cbn [negb].
    rewrite ?(@name_of_truthy _ _ Hf). cbn [negb]. rewrite Hf.
    right. eexists _, _. split; [reflexivity | apply Hq; reflexivity].
Qed.

(** X26. The line that says there is no repository is never printed: a
    list that is not empty always yields a target, or an exception. *)
Theorem no_repositories_is_never_printed (w : World) :
  ~ In NoRepositories (printed (events (snd (run_live_test w)))).
Proof.
  destruct (run_live_test_shape w) as [(st & E & _ & _ & Hn)|(n & st & E & _ & _ & Hn)].
  - now rewrite E.
  - rewrite E. intros H. apply Hn.
    now apply (report_on_effects n st).
Qed.

(** X27. A run sends the model one request at most; it holds the first 3000
    characters of the README at most, and has temperature 0.7 and a
    timeout of 60 seconds. *)
Theorem analysis_request_is_bounded (w : World) :
  length (posted (events (snd (run_live_test w)))) <= 1 /\
  Forall (fun pt => length (readme (user_message (fst pt))) <= 3000 /\
                    temperature (fst pt) = (7 # 10)%Q /\ snd pt = 60%Z)
    (posted (events (snd (run_live_test w)))).
Proof.
  destruct (run_live_test_shape w) as [(st & E & Hp & _)|(n & st & E & Hp & _)].
  - rewrite E, Hp. split; [simpl; lia | constructor].
  - rewrite E. destruct (report_on_effects n st) as (_ & sent & Hs & Hl & Hf).
    rewrite Hs, Hp. cbn [app]. split; assumption.
Qed.

(** X28. The README goes to the model whole when it has 3000 characters at
    most, and cut after the 3000th otherwise. *)
Theorem readme_is_cut_at_3000 (repo_name : json) (content : str) (st : state World) :
  exists p,
    posted (events (snd (analyze_with_ai repo_name content st)))
      = posted (events st) ++ [(p, 60%Z)] /\
    project (user_message p) = repo_name /\
    readme (user_message p) = firstn 3000 content /\
    (length content <= 3000 -> readme (user_message p) = content) /\
    (3000 < length content -> length (readme (user_message p)) = 3000).
Proof.
  destruct (analyze_with_ai_effects repo_name content st) as (Hp & _).
  eexists. split; [exact Hp|]. cbn [user_message project readme].
  repeat split.
  - intros H. now apply firstn_all2.
  - intros H. rewrite length_firstn. lia.
Qed.

Lemma find_intro_electron_raises (before after : list json) (bad : json) (e : error) :
  Forall other_repo before -> name_of bad = inr e ->
  find_intro_electron (before ++ bad :: after) = inr e.
Proof.
  intros Hb Hn.
  induction Hb as [|x l (n & Hx & Hne) _ IH]; cbn [find_intro_electron app].
  - now rewrite Hn.
  - now rewrite Hx, Hne.
Qed.

(** X29. An item without a name that comes before any repository named
    [intro-electron] ends the script with the exception of its
    subscript; no target is chosen and nothing is sent. *)
Theorem nameless_item_raises (w w1 : World) (before after : list json)
    (bad : json) (e : error) :
  github_repos w = (Response 200 (Some (JArray (before ++ bad :: after))), w1) ->
  Forall other_repo before ->
  name_of bad = inr e ->
  fst (run_live_test w) = Some e /\
  selected (events (snd (run_live_test w))) = [] /\
  posted (events (snd (run_live_test w))) = [].
Proof.
  intros Hg Hb Hn.
  pose proof (@find_intro_electron_raises before after bad e Hb Hn) as Hfind.
  unfold LiveTest.run_live_test, LiveTest.get_real_repos, say. cbn [world events].
  rewrite Hg. cbn [Z.eqb Pos.eqb negb].
  assert (Ht : truthy (JArray (before ++ bad :: after)) = true)
    by (destruct before; reflexivity).
  rewrite Ht. cbn [negb len iterate]. rewrite Hfind. repeat split.
Qed.

End Live.

(** ** Concrete runs of the further properties *)

Lemma request_error_ends_the_turn_witness :
  verify_flow unreachable loads SHARK (init tt) =
    (Raised RequestError,
     {| world := tt;
        trace := [Print (Header SHARK); Print Rule; Print (Banner ROUTER);
                  Post (router_request SHARK)] |}) /\
  verify_flow replies loads SHARK (init [TOOL_WELCOME]) =
    (Raised RequestError,
     {| world := [];
        trace := [Print (Header SHARK); Print Rule; Print (Banner ROUTER);
                  Post (router_request SHARK); Print (Intent WELCOME_HEADER);
                  Print (Banner CONSTRUCTOR);
                  Post (constructor_request WELCOME_HEADER SHARK)] |}) /\
  fst (verify_flow replies loads SHARK (init [TOOL_WELCOME; PARAMS_FULL]))
    = Raised RequestError /\
  exists tr r,
    trace (snd (verify_flow replies loads SHARK (init [TOOL_WELCOME; PARAMS_FULL])))
      = tr ++ [Post r] /\
    final_messages
      (trace (snd (verify_flow replies loads SHARK (init [TOOL_WELCOME; PARAMS_FULL]))))
      = [].
Proof.
  split; [|split; [|split]].
  - apply (@request_error_ends_the_turn unit unreachable loads SHARK tt).
    reflexivity.
  - apply (proj1 (proj2 (@request_error_ends_the_turn (list str) replies loads SHARK
                           [TOOL_WELCOME]))
             TOOL_WELCOME [] WELCOME_HEADER []).
    + reflexivity.
    + vm_compute. reflexivity.
    + vm_compute. reflexivity.
    + vm_compute. reflexivity.
    + reflexivity.
  - rewrite (proj1 (proj2 (proj2 (@request_error_ends_the_turn (list str) replies loads
                                    SHARK [TOOL_WELCOME; PARAMS_FULL])))
               TOOL_WELCOME [PARAMS_FULL] WELCOME_HEADER PARAMS_FULL []
               [(lit "action", JString (lit "insert_banner"));
                (lit "toolId", JString (lit "welcome_header"));
                (lit "params", JObject [(lit "type", JString (lit "shark"));
                                        (lit "color", JString (lit "blue"))])]
               (JString (lit "blue")) []).
    + reflexivity.
    + reflexivity.
    + vm_compute. reflexivity.
    + vm_compute. reflexivity.
    + vm_compute. reflexivity.
    + reflexivity.
    + vm_compute. reflexivity.
    + vm_compute. reflexivity.
    + vm_compute. reflexivity.
    + vm_compute. reflexivity.
    + reflexivity.
  - apply (proj2 (proj2 (proj2 (@request_error_ends_the_turn (list str) replies loads
                                  SHARK [TOOL_WELCOME; PARAMS_FULL])))).
    vm_compute. reflexivity.
Defined.

Lemma params_not_an_object_raises_witness :
  verify_flow (scripted TOOL_WELCOME (dq "{'params': null}") LISTO) loads SHARK (init tt) =
    (Raised AttributeError,
     {| world := tt;
        trace := [Print (Header SHARK); Print Rule; Print (Banner ROUTER);
                  Post (router_request SHARK); Print (Intent WELCOME_HEADER);
                  Print (Banner CONSTRUCTOR);
                  Post (constructor_request WELCOME_HEADER SHARK);
                  Print (Params JNull); Print (Banner EXECUTION)] |}).
Proof.
  apply (@params_not_an_object_raises unit
           (scripted TOOL_WELCOME (dq "{'params': null}") LISTO) loads SHARK tt tt tt
           TOOL_WELCOME (dq "{'params': null}") WELCOME_HEADER JNull
           [(lit "params", JNull)]).
  - reflexivity.
  - vm_compute. reflexivity.
  - vm_compute. reflexivity.
  - vm_compute. reflexivity.
  - reflexivity.
  - vm_compute. reflexivity.
  - vm_compute. reflexivity.
  - intros p. discriminate.
  - reflexivity.
Defined.


Lemma routed_id_is_used_throughout_witness :
  posts (trace (snd (verify_flow
                       (scripted TOOL_WELCOME (dq "{'toolId': 'tech_stack', 'params': {'color': 'red'}}") LISTO)
                       loads SHARK (init tt)))) =
    [router_request SHARK; constructor_request WELCOME_HEADER SHARK;
     responder_request WELCOME_HEADER
       (BannerInserted WELCOME_HEADER (JString (lit "red"))) SHARK] /\
  constructor_ids
    (trace (snd (verify_flow
                   (scripted TOOL_WELCOME (dq "{'toolId': 'tech_stack', 'params': {'color': 'red'}}") LISTO)
                   loads SHARK (init tt)))) = [WELCOME_HEADER] /\
  execution_results
    (trace (snd (verify_flow
                   (scripted TOOL_WELCOME (dq "{'toolId': 'tech_stack', 'params': {'color': 'red'}}") LISTO)
                   loads SHARK (init tt))))
    = [BannerInserted WELCOME_HEADER (JString (lit "red"))].
Proof.
  apply (@routed_id_is_used_throughout unit
           (scripted TOOL_WELCOME (dq "{'toolId': 'tech_stack', 'params': {'color': 'red'}}") LISTO)
           loads SHARK tt tt tt TOOL_WELCOME
           (dq "{'toolId': 'tech_stack', 'params': {'color': 'red'}}")
           WELCOME_HEADER (JString (lit "red"))
           [(lit "toolId", JString (lit "tech_stack"));
            (lit "params", JObject [(lit "color", JString (lit "red"))])]).
  - reflexivity.
  - vm_compute. reflexivity.
  - vm_compute. reflexivity.
  - vm_compute. reflexivity.
  - reflexivity.
  - vm_compute. reflexivity.
  - vm_compute. reflexivity.
  - vm_compute. reflexivity.
  - vm_compute. reflexivity.
Defined.


(** A reply that cannot be printed stops the analysis where it is
    shown: the Router's reply before its parse, with one request
    sent. *)
Example analysis_stops_at_an_unprintable_reply :
  RepoAnalysis.verify_analysis_flow (scripted [56320%N] SORRY LISTO) loads (init tt)
    = (Raised UnicodeEncodeError,
       {| world := tt;
          trace := [Print AnalysisHeader; Print Rule;
                    Print (UserLine RepoAnalysis.USER_INPUT);
                    Print (Banner ROUTER); Post analysis_router_request] |}).
Proof. vm_compute. reflexivity. Qed.

Lemma analysis_has_no_chat_exit_witness :
  nth_error
    (posts (trace (snd (RepoAnalysis.verify_analysis_flow
                          (scripted TOOL_CHAT SORRY LISTO) loads (init tt))))) 1
    = Some {| model := MODEL;
              messages := [system EmptyJsonTurn; user RepoAnalysis.USER_INPUT];
              temperature := 0 |} /\
  invoked CONSTRUCTOR
    (trace (snd (RepoAnalysis.verify_analysis_flow
                   (scripted TOOL_CHAT SORRY LISTO) loads (init tt)))) = true.
Proof.
  apply (@analysis_has_no_chat_exit unit (scripted TOOL_CHAT SORRY LISTO) loads
           tt tt TOOL_CHAT).
  - reflexivity.
  - vm_compute. reflexivity.
  - vm_compute. reflexivity.
Defined.

Lemma every_scenario_is_requested_witness :
  StressTest.posted
    (StressTest.events
       (snd (StressTest.run_stress_test (StressTest.always (JString TOOL_CHAT)) loads
               (StressTest.Holds StressTest.PROMPT_TEXT) tt)))
    = map (fun u => (StressTest.scenario_payload
                       (dict_get [(lit "systemPrompt", JString (lit "You ONLY output JSON."))]
                          (lit "systemPrompt") JNull) u, 30%Z))
        StressTest.SCENARIOS /\
  length (StressTest.posted
            (StressTest.events
               (snd (StressTest.run_stress_test (StressTest.always (JString TOOL_CHAT)) loads
                       (StressTest.Holds StressTest.PROMPT_TEXT) tt)))) = 10.
Proof.
  apply (@every_scenario_is_requested unit (StressTest.always (JString TOOL_CHAT)) loads
           StressTest.PROMPT_TEXT
           [(lit "systemPrompt", JString (lit "You ONLY output JSON."))] tt).
  - vm_compute. reflexivity.
  - reflexivity.
Defined.


(** A reply with the escape of a lone surrogate in a field that the log
    does not show: every scenario is requested and the object is
    recorded, and the audit breaks off when it is written. *)
Example lone_surrogate_loses_the_audit :
  fst (StressTest.run_stress_test (StressTest.always (JString (dq "{'a': '\ud800'}")))
         loads (StressTest.Holds StressTest.PROMPT_TEXT) tt)
    = Some StressTest.UnicodeEncodeError /\
  length (StressTest.posted
            (StressTest.events
               (snd (StressTest.run_stress_test
                       (StressTest.always (JString (dq "{'a': '\ud800'}")))
                       loads (StressTest.Holds StressTest.PROMPT_TEXT) tt)))) = 10 /\
  length (StressTest.dumped_in_part
            (StressTest.events
               (snd (StressTest.run_stress_test
                       (StressTest.always (JString (dq "{'a': '\ud800'}")))
                       loads (StressTest.Holds StressTest.PROMPT_TEXT) tt)))) = 1.
Proof. repeat split; vm_compute; reflexivity. Qed.

(** The same escape in [action], which the log shows: the [print] of
    the log fails inside the outer [try], ["ERROR"] is recorded in
    place of the object, and the audit is written whole. *)
Example unprintable_log_is_recorded_as_an_error :
  StressTest.audit_scenario (StressTest.always (JString (dq "{'action': '\ud800'}")))
    loads (JString LISTO) 1 10 HOLA
    {| StressTest.world := tt; StressTest.events := [] |}
  = ({| StressTest.input := HOLA; StressTest.response_of := JString (lit "ERROR") |},
     {| StressTest.world := tt;
        StressTest.events :=
          [StressTest.Printed (StressTest.Scenario 1 10 HOLA);
           StressTest.Posted (StressTest.scenario_payload (JString LISTO) HOLA) 30;
           StressTest.Printed (StressTest.Status true);
           StressTest.Printed StressTest.Error;
           StressTest.Printed (StressTest.Dashes 40)] |}) /\
  fst (StressTest.run_stress_test
         (StressTest.always (JString (dq "{'action': '\ud800'}")))
         loads (StressTest.Holds StressTest.PROMPT_TEXT) tt) = None.
Proof. split; vm_compute; reflexivity. Qed.


(** A prompt file that exists but does not hold JSON is opened all the
    same; nothing else is. *)
Example broken_prompt_file_is_opened :
  StressTest.run_stress_test (StressTest.always (JString TOOL_CHAT)) loads
    (StressTest.Holds SORRY) tt
  = (Some StressTest.JSONDecodeError,
     {| StressTest.world := tt;
        StressTest.events :=
          [StressTest.Printed StressTest.Starting;
           StressTest.Printed (StressTest.Dashes 60);
           StressTest.Opened StressTest.PROMPT_FILE] |}).
Proof. vm_compute. reflexivity. Qed.

Lemma failure_mark_is_ambiguous_witness :
  fst (StressTest.audit_scenario StressTest.flaky loads (JString LISTO) 1 10 HOLA
         {| StressTest.world := true; StressTest.events := [] |})
  = fst (StressTest.audit_scenario StressTest.flaky loads (JString LISTO) 1 10 HOLA
           {| StressTest.world := false; StressTest.events := [] |}).
Proof.
  apply (@failure_mark_is_ambiguous bool StressTest.flaky loads (JString LISTO) 1 10 HOLA
           {| StressTest.world := true; StressTest.events := [] |}
           {| StressTest.world := false; StressTest.events := [] |}
           500%Z None true false).
  - vm_compute. reflexivity.
  - reflexivity.
  - reflexivity.
  - reflexivity.
Defined.



(** The two ends of such a run: with a reply that can be printed it
    ends normally; with a reply that holds a surrogate it ends with the
    encoding error at the [print] of the report, the request having
    been sent. *)
Example report_that_cannot_be_printed :
  fst (LiveTest.run_live_test
         (LiveTest.github (JArray [LiveTest.repo "intro-electron"]))
         (LiveTest.readme_is (Some LISTO)) (LiveTest.ai_says (JString LISTO)) tt)
    = None /\
  fst (LiveTest.run_live_test
         (LiveTest.github (JArray [LiveTest.repo "intro-electron"]))
         (LiveTest.readme_is (Some LISTO)) (LiveTest.ai_says (JString [55296%N])) tt)
    = Some LiveTest.UnicodeEncodeError /\
  length (LiveTest.posted
            (LiveTest.events
               (snd (LiveTest.run_live_test
                       (LiveTest.github (JArray [LiveTest.repo "intro-electron"]))
                       (LiveTest.readme_is (Some LISTO))
                       (LiveTest.ai_says (JString [55296%N])) tt)))) = 1.
Proof. repeat split; vm_compute; reflexivity. Qed.


Lemma nameless_item_raises_witness :
  fst (LiveTest.run_live_test
         (LiveTest.github (JArray [LiveTest.repo "GitTeach"; JNull;
                                   LiveTest.repo "intro-electron"]))
         (LiveTest.readme_is (Some LISTO)) (LiveTest.ai_says (JString LISTO)) tt)
    = Some LiveTest.TypeError /\
  LiveTest.selected
    (LiveTest.events
       (snd (LiveTest.run_live_test
               (LiveTest.github (JArray [LiveTest.repo "GitTeach"; JNull;
                                         LiveTest.repo "intro-electron"]))
               (LiveTest.readme_is (Some LISTO)) (LiveTest.ai_says (JString LISTO)) tt)))
    = [] /\
  LiveTest.posted
    (LiveTest.events
       (snd (LiveTest.run_live_test
               (LiveTest.github (JArray [LiveTest.repo "GitTeach"; JNull;
                                         LiveTest.repo "intro-electron"]))
               (LiveTest.readme_is (Some LISTO)) (LiveTest.ai_says (JString LISTO)) tt)))
    = [].
Proof.
  apply (@nameless_item_raises unit
           (LiveTest.github (JArray [LiveTest.repo "GitTeach"; JNull;
                                     LiveTest.repo "intro-electron"]))
           (LiveTest.readme_is (Some LISTO)) (LiveTest.ai_says (JString LISTO))
           tt tt [LiveTest.repo "GitTeach"] [LiveTest.repo "intro-electron"] JNull
           LiveTest.TypeError).
  - reflexivity.
  - constructor; [|constructor]. exists (JString (lit "GitTeach")).
    split; vm_compute; reflexivity.
  - reflexivity.
Defined.

